(** * Loki log tooling: query planner, execution client and pattern detector

    A shallow embedding of
      - [src/core/logql_service.py]                     (query planner),
      - [src/mcp_server/tools/loki/error_handling.py]   (error classifier,
        log pattern detector),
      - [src/mcp_server/tools/loki/models.py]           (response envelope),
      - [src/mcp_server/tools/loki/query_tool.py]       (log entry parser,
        query execution),
    followed by the properties established about them.

    Python [str] values are Rocq strings.  The string methods and the
    regular expressions of the standard library ([lower], [strip], [in],
    [re.search]) are embedded for ASCII text, on which Python's
    Unicode-aware versions coincide with the definitions given here.
    [json.loads] is embedded for documents the interpreter decodes without
    running out of stack, with integer literals below its limit of 4300
    digits.  Python [float] values are IEEE 754 binary64 numbers, as the
    Standard Library's [SpecFloat] specifies them. *)

From Stdlib Require Import String Ascii List ZArith Bool Lia DecimalString.
From Stdlib Require SpecFloat.
Import ListNotations.
Open Scope list_scope.
Open Scope string_scope.
Set Warnings "-register-all".

(* ================================================================== *)
(** * Python strings *)
(* ================================================================== *)

Module PyStr.

(** The double-quote character and the one-character string holding it. *)
Definition dquote : ascii := "034"%char.
Definition dq : string := String dquote EmptyString.

Definition code (a : ascii) : nat := nat_of_ascii a.

Definition is_upper (a : ascii) : bool :=
  (65 <=? code a)%nat && (code a <=? 90)%nat.

Definition is_lower (a : ascii) : bool :=
  (97 <=? code a)%nat && (code a <=? 122)%nat.

Definition is_digit (a : ascii) : bool :=
  (48 <=? code a)%nat && (code a <=? 57)%nat.

(** [\w]: letters, digits and the underscore. *)
Definition is_word (a : ascii) : bool :=
  is_upper a || is_lower a || is_digit a || (code a =? 95)%nat.

(** [str.isspace] on one character, which is also [\s]:
    TAB, LF, VT, FF, CR, FS, GS, RS, US and the space. *)
Definition is_space (a : ascii) : bool :=
  ((9 <=? code a)%nat && (code a <=? 13)%nat)
  || ((28 <=? code a)%nat && (code a <=? 32)%nat).

Definition lower_ascii (a : ascii) : ascii :=
  if is_upper a then ascii_of_nat (code a + 32) else a.

(** [s.lower()] *)
Fixpoint lower (s : string) : string :=
  match s with
  | EmptyString => EmptyString
  | String a r => String (lower_ascii a) (lower r)
  end.

(** [s.startswith(p)] *)
Fixpoint startswith (p s : string) : bool :=
  match p, s with
  | EmptyString, _ => true
  | String _ _, EmptyString => false
  | String a p', String b s' => Ascii.eqb a b && startswith p' s'
  end.

(** [p in s]: [p] occurs in [s] as a contiguous substring. *)
Fixpoint str_in (p s : string) : bool :=
  startswith p s
  || match s with
     | EmptyString => false
     | String _ s' => str_in p s'
     end.

(** [any(w in s for w in words)] *)
Definition any_in (words : list string) (s : string) : bool :=
  existsb (fun w => str_in w s) words.

(** [s.lstrip()], [s.rstrip()], [s.strip()] *)
Fixpoint lstrip (s : string) : string :=
  match s with
  | EmptyString => EmptyString
  | String a r => if is_space a then lstrip r else s
  end.

Fixpoint rstrip (s : string) : string :=
  match s with
  | EmptyString => EmptyString
  | String a r =>
      match rstrip r with
      | EmptyString => if is_space a then EmptyString else String a EmptyString
      | r' => String a r'
      end
  end.

Definition strip (s : string) : string := rstrip (lstrip s).

(** Truth value of a string: non-empty. *)
Definition truthy (s : string) : bool :=
  match s with EmptyString => false | String _ _ => true end.

(** [s.endswith(p)] for a one-character [p]. *)
Fixpoint last_char (s : string) : option ascii :=
  match s with
  | EmptyString => None
  | String a EmptyString => Some a
  | String _ r => last_char r
  end.

Definition first_char (s : string) : option ascii :=
  match s with EmptyString => None | String a _ => Some a end.

Definition starts_with_char (c : ascii) (s : string) : bool :=
  match first_char s with Some a => Ascii.eqb a c | None => false end.

Definition ends_with_char (c : ascii) (s : string) : bool :=
  match last_char s with Some a => Ascii.eqb a c | None => false end.

(** [str(n)] and [f"{n}"] for an integer. *)
Definition str_of_Z (n : Z) : string := NilZero.string_of_int (Z.to_int n).

(** [int(s)] on a string of decimal digits (what [\d+] captures). *)
Definition digit_val (a : ascii) : Z := Z.of_nat (code a - 48).

Fixpoint int_of_digits_from (acc : Z) (s : string) : Z :=
  match s with
  | EmptyString => acc
  | String a r => int_of_digits_from (10 * acc + digit_val a) r
  end.

Definition int_of_digits (s : string) : Z := int_of_digits_from 0 s.

(** Every character of [s] is in the class [cls]. *)
Fixpoint all_chars (cls : ascii -> bool) (s : string) : bool :=
  match s with
  | EmptyString => true
  | String a r => cls a && all_chars cls r
  end.

(** The characters of ASCII: the text the string methods and the regular
    expressions of this development are embedded for. *)
Definition is_ascii (a : ascii) : bool := (code a <? 128)%nat.

(** [int(s)] on an arbitrary string: surrounding whitespace is dropped,
    one sign is allowed, and digits may be separated by single
    underscores.  [None] stands for [ValueError].  (The interpreter's
    configurable cap on the number of digits is not part of the model.) *)
Fixpoint int_digits (acc : Z) (after_digit : bool) (s : string) : option Z :=
  match s with
  | EmptyString => if after_digit then Some acc else None
  | String a r =>
      if is_digit a then int_digits (10 * acc + digit_val a) true r
      else if Ascii.eqb a "_"%char && after_digit then int_digits acc false r
      else None
  end.

(** The white space [int] passes over at both ends of an ASCII literal:
    TAB, LF, VT, FF, CR and the space (not FS, GS, RS, US, which [strip]
    drops). *)
Definition is_int_space (a : ascii) : bool :=
  ((9 <=? code a)%nat && (code a <=? 13)%nat) || (code a =? 32)%nat.

Fixpoint int_lstrip (s : string) : string :=
  match s with
  | EmptyString => EmptyString
  | String a r => if is_int_space a then int_lstrip r else s
  end.

Fixpoint int_rstrip (s : string) : string :=
  match s with
  | EmptyString => EmptyString
  | String a r =>
      match int_rstrip r with
      | EmptyString => if is_int_space a then EmptyString else String a EmptyString
      | r' => String a r'
      end
  end.

Definition py_int (s : string) : option Z :=
  match int_rstrip (int_lstrip s) with
  | String "-"%char r => option_map Z.opp (int_digits 0 false r)
  | String "+"%char r => int_digits 0 false r
  | t => int_digits 0 false t
  end.

(** [repr(s)]: quoted, with the escapes Python prints. *)
Definition hex_digit (n : nat) : ascii :=
  if (n <? 10)%nat then ascii_of_nat (48 + n) else ascii_of_nat (87 + n).

Definition repr_char (quote : ascii) (a : ascii) : string :=
  if Ascii.eqb a "\"%char then "\\"
  else if Ascii.eqb a quote then String "\"%char (String a EmptyString)
  else if (code a =? 10)%nat then "\n"
  else if (code a =? 13)%nat then "\r"
  else if (code a =? 9)%nat then "\t"
  else if (code a <? 32)%nat || (code a =? 127)%nat then
    String "\"%char (String "x"%char
      (String (hex_digit (code a / 16)) (String (hex_digit (code a mod 16)) EmptyString)))
  else String a EmptyString.

Fixpoint repr_body (quote : ascii) (s : string) : string :=
  match s with
  | EmptyString => EmptyString
  | String a r => repr_char quote a ++ repr_body quote r
  end.

Definition repr (s : string) : string :=
  let quote :=
    if str_in "'" s && negb (str_in dq s) then dquote else "'"%char in
  String quote (repr_body quote s) ++ String quote EmptyString.

End PyStr.
Import PyStr.

(* ================================================================== *)
(** * Regular expressions ([re.search]) *)
(* ================================================================== *)

(** The fragment of Python's regular expressions the sources use: literal
    text, greedy [+] and [*] over a character class, sequence, ordered
    alternation, capture groups and the word boundary.  Matching is the
    backtracking search of [re]: leftmost start, alternatives in order,
    repetitions longest first. *)
Module Re.

Inductive regex : Type :=
| Lit (text : string)
| Plus (cls : ascii -> bool)
| Star (cls : ascii -> bool)
| Seq (r1 r2 : regex)
| Alt (r1 r2 : regex)
| Group (n : nat) (r : regex)
| WordB.

(** Captured groups, most recent first. *)
Definition captures := list (nat * string).

Fixpoint group (n : nat) (c : captures) : string :=
  match c with
  | [] => EmptyString
  | (i, s) :: rest => if (i =? n)%nat then s else group n rest
  end.

Definition word_before (prev : option ascii) : bool :=
  match prev with Some a => is_word a | None => false end.

Definition word_after (s : string) : bool :=
  match s with String a _ => is_word a | EmptyString => false end.

Section Matching.

(** [re.IGNORECASE] *)
Variable ignorecase : bool.

Definition chr_eq (a b : ascii) : bool :=
  if ignorecase then Ascii.eqb (lower_ascii a) (lower_ascii b)
  else Ascii.eqb a b.

(** The cursor is the character before it (for [\b]) and the text
    after it. *)
Fixpoint lit (p : string) (prev : option ascii) (s : string)
  : option (option ascii * string) :=
  match p with
  | EmptyString => Some (prev, s)
  | String a p' =>
      match s with
      | String b s' => if chr_eq a b then lit p' (Some b) s' else None
      | EmptyString => None
      end
  end.

(** Greedy repetition of a class: take as many characters as possible,
    give them back one at a time while the continuation fails. *)
Fixpoint many {A : Type} (cls : ascii -> bool)
         (k : option ascii -> string -> option A)
         (prev : option ascii) (s : string) : option A :=
  match s with
  | String a s' =>
      if cls a then
        match many cls k (Some a) s' with
        | Some x => Some x
        | None => k prev s
        end
      else k prev s
  | EmptyString => k prev s
  end.

Fixpoint run {A : Type} (r : regex)
         (k : option ascii -> string -> captures -> option A)
         (prev : option ascii) (s : string) (c : captures) : option A :=
  match r with
  | Lit p =>
      match lit p prev s with
      | Some (prev', s') => k prev' s' c
      | None => None
      end
  | Plus cls =>
      match s with
      | String a s' =>
          if cls a then many cls (fun pr t => k pr t c) (Some a) s' else None
      | EmptyString => None
      end
  | Star cls => many cls (fun pr t => k pr t c) prev s
  | Seq r1 r2 => run r1 (fun pr t c' => run r2 k pr t c') prev s c
  | Alt r1 r2 =>
      match run r1 k prev s c with
      | Some x => Some x
      | None => run r2 k prev s c
      end
  | Group n r1 =>
      run r1
          (fun pr t c' =>
             k pr t ((n, substring 0 (String.length s - String.length t) s) :: c'))
          prev s c
  | WordB =>
      if xorb (word_before prev) (word_after s) then k prev s c else None
  end.

(** [re.search(r, s)]: the first start position, from the left, at
    which the expression matches. *)
Fixpoint search_from (r : regex) (prev : option ascii) (s : string)
  : option captures :=
  match run r (fun _ _ c => Some c) prev s [] with
  | Some c => Some c
  | None =>
      match s with
      | String a s' => search_from r (Some a) s'
      | EmptyString => None
      end
  end.

Definition search (r : regex) (s : string) : option captures :=
  search_from r None s.

End Matching.

Fixpoint alts (words : list string) : regex :=
  match words with
  | [] => Lit EmptyString
  | [w] => Lit w
  | w :: rest => Alt (Lit w) (alts rest)
  end.

End Re.

(* ================================================================== *)
(** * JSON decoding ([json.loads]) *)
(* ================================================================== *)

Module Json.

(** Decoded values.  A number keeps its literal; an object keeps its
    members in document order. *)
Inductive json : Type :=
| JNull
| JBool (b : bool)
| JNum (literal : string)
| JStr (s : string)
| JArr (items : list json)
| JObj (members : list (string * json)).

(** [d.get(key)] on a decoded object: of several members with the same
    key the last one is kept. *)
Fixpoint dict_get (key : string) (members : list (string * json)) : option json :=
  match members with
  | [] => None
  | (k, v) :: rest =>
      match dict_get key rest with
      | Some v' => Some v'
      | None => if String.eqb k key then Some v else None
      end
  end.

Definition get (key : string) (members : list (string * json)) (default : json) : json :=
  match dict_get key members with Some v => v | None => default end.

Definition is_ws (a : ascii) : bool :=
  (code a =? 32)%nat || (code a =? 9)%nat || (code a =? 10)%nat || (code a =? 13)%nat.

Fixpoint skip_ws (s : string) : string :=
  match s with
  | String a r => if is_ws a then skip_ws r else s
  | EmptyString => EmptyString
  end.

(** Escapes inside strings. *)
Definition hex_val (a : ascii) : option N :=
  let n := code a in
  if is_digit a then Some (N.of_nat (n - 48))
  else if (97 <=? n)%nat && (n <=? 102)%nat then Some (N.of_nat (n - 87))
  else if (65 <=? n)%nat && (n <=? 70)%nat then Some (N.of_nat (n - 55))
  else None.

Definition hex4 (a b c d : ascii) : option N :=
  match hex_val a, hex_val b, hex_val c, hex_val d with
  | Some x, Some y, Some z, Some w => Some (((x * 16 + y) * 16 + z) * 16 + w)%N
  | _, _, _, _ => None
  end.

Definition byte (n : N) : ascii := ascii_of_N n.

(** UTF-8 bytes of a code point. *)
Definition utf8 (n : N) : string :=
  if (n <? 128)%N then String (byte n) EmptyString
  else if (n <? 2048)%N then
    String (byte (192 + n / 64)) (String (byte (128 + n mod 64)) EmptyString)
  else if (n <? 65536)%N then
    String (byte (224 + n / 4096))
      (String (byte (128 + (n / 64) mod 64))
         (String (byte (128 + n mod 64)) EmptyString))
  else
    String (byte (240 + n / 262144))
      (String (byte (128 + (n / 4096) mod 64))
         (String (byte (128 + (n / 64) mod 64))
            (String (byte (128 + n mod 64)) EmptyString))).

Definition simple_escape (a : ascii) : option ascii :=
  if Ascii.eqb a dquote then Some dquote
  else if Ascii.eqb a "\"%char then Some "\"%char
  else if Ascii.eqb a "/"%char then Some "/"%char
  else if Ascii.eqb a "b"%char then Some "008"%char
  else if Ascii.eqb a "f"%char then Some "012"%char
  else if Ascii.eqb a "n"%char then Some "010"%char
  else if Ascii.eqb a "r"%char then Some "013"%char
  else if Ascii.eqb a "t"%char then Some "009"%char
  else None.

Definition is_high_surrogate (n : N) : bool := (55296 <=? n)%N && (n <=? 56319)%N.
Definition is_low_surrogate (n : N) : bool := (56320 <=? n)%N && (n <=? 57343)%N.

(** The text after an opening quote: the decoded string and what follows
    the closing quote.  Control characters are refused (strict mode). *)
Fixpoint scan_string (s : string) : option (string * string) :=
  match s with
  | EmptyString => None
  | String a r =>
      if Ascii.eqb a dquote then Some (EmptyString, r)
      else if Ascii.eqb a "\"%char then
        match r with
        | String e r1 =>
            if Ascii.eqb e "u"%char then
              match r1 with
              | String h1 (String h2 (String h3 (String h4 r2))) =>
                  match hex4 h1 h2 h3 h4 with
                  | None => None
                  | Some hi =>
                      let single :=
                        match scan_string r2 with
                        | Some (t, rest) => Some (utf8 hi ++ t, rest)
                        | None => None
                        end in
                      if is_high_surrogate hi then
                        match r2 with
                        | String b (String u (String l1 (String l2 (String l3 (String l4 r3))))) =>
                            if Ascii.eqb b "\"%char && Ascii.eqb u "u"%char then
                              match hex4 l1 l2 l3 l4 with
                              | Some lo =>
                                  if is_low_surrogate lo then
                                    match scan_string r3 with
                                    | Some (t, rest) =>
                                        Some (utf8 (65536 + (hi - 55296) * 1024 + (lo - 56320))%N ++ t, rest)
                                    | None => None
                                    end
                                  else single
                              | None => single
                              end
                            else single
                        | _ => single
                        end
                      else single
                  end
              | _ => None
              end
            else
              match simple_escape e with
              | Some x =>
                  match scan_string r1 with
                  | Some (t, rest) => Some (String x t, rest)
                  | None => None
                  end
              | None => None
              end
        | EmptyString => None
        end
      else if (code a <? 32)%nat then None
      else
        match scan_string r with
        | Some (t, rest) => Some (String a t, rest)
        | None => None
        end
  end.

(** Numbers: an optional minus sign; an integer part that is 0 or a
    non-zero digit followed by digits; an optional fraction (a dot and
    at least one digit); an optional exponent (e or E, an optional sign,
    at least one digit). *)
Fixpoint span_digits (s : string) : string * string :=
  match s with
  | String a r =>
      if is_digit a then let '(d, rest) := span_digits r in (String a d, rest)
      else (EmptyString, s)
  | EmptyString => (EmptyString, EmptyString)
  end.

Definition scan_int_part (s : string) : option (string * string) :=
  match s with
  | String a r =>
      if Ascii.eqb a "0"%char then Some ("0", r)
      else if is_digit a then
        let '(d, rest) := span_digits r in Some (String a d, rest)
      else None
  | EmptyString => None
  end.

Definition scan_frac (s : string) : string * string :=
  match s with
  | String a r =>
      if Ascii.eqb a "."%char then
        match span_digits r with
        | (EmptyString, _) => (EmptyString, s)
        | (d, rest) => (String a d, rest)
        end
      else (EmptyString, s)
  | EmptyString => (EmptyString, s)
  end.

Definition scan_exp (s : string) : string * string :=
  match s with
  | String e r =>
      if Ascii.eqb e "e"%char || Ascii.eqb e "E"%char then
        let '(sign, r1) :=
          match r with
          | String g r' =>
              if Ascii.eqb g "+"%char || Ascii.eqb g "-"%char
              then (String g EmptyString, r') else (EmptyString, r)
          | EmptyString => (EmptyString, r)
          end in
        match span_digits r1 with
        | (EmptyString, _) => (EmptyString, s)
        | (d, rest) => (String e (sign ++ d), rest)
        end
      else (EmptyString, s)
  | EmptyString => (EmptyString, s)
  end.

Definition scan_number (s : string) : option (string * string) :=
  let '(sign, r) :=
    match s with
    | String a r' => if Ascii.eqb a "-"%char then ("-", r') else (EmptyString, s)
    | EmptyString => (EmptyString, s)
    end in
  match scan_int_part r with
  | Some (i, r1) =>
      let '(f, r2) := scan_frac r1 in
      let '(e, r3) := scan_exp r2 in
      Some (sign ++ i ++ f ++ e, r3)
  | None => None
  end.

(** [drop_prefix p s]: what follows [p] when [s] starts with it. *)
Fixpoint drop_prefix (p s : string) : option string :=
  match p, s with
  | EmptyString, _ => Some s
  | String a p', String b s' => if Ascii.eqb a b then drop_prefix p' s' else None
  | String _ _, EmptyString => None
  end.

Definition scan_literal (s : string) : option (json * string) :=
  match drop_prefix "null" s with
  | Some r => Some (JNull, r)
  | None =>
  match drop_prefix "true" s with
  | Some r => Some (JBool true, r)
  | None =>
  match drop_prefix "false" s with
  | Some r => Some (JBool false, r)
  | None =>
  match drop_prefix "NaN" s with
  | Some r => Some (JNum "NaN", r)
  | None =>
  match drop_prefix "Infinity" s with
  | Some r => Some (JNum "Infinity", r)
  | None =>
  match drop_prefix "-Infinity" s with
  | Some r => Some (JNum "-Infinity", r)
  | None => None
  end end end end end end.

Section Containers.

(** The value scanner the container loops call back. *)
Variable scan_value : string -> option (json * string).

(** The member loop of an object; [s] is at a key. *)
Fixpoint scan_members (fuel : nat) (s : string) (acc : list (string * json))
  : option (json * string) :=
  match fuel with
  | O => None
  | S fuel' =>
      match s with
      | String q r =>
          if Ascii.eqb q dquote then
            match scan_string r with
            | Some (key, r1) =>
                match skip_ws r1 with
                | String c r2 =>
                    if Ascii.eqb c ":"%char then
                      match scan_value (skip_ws r2) with
                      | Some (v, r3) =>
                          match skip_ws r3 with
                          | String d r4 =>
                              if Ascii.eqb d "}"%char then
                                Some (JObj (acc ++ [(key, v)]), r4)
                              else if Ascii.eqb d ","%char then
                                scan_members fuel' (skip_ws r4) (acc ++ [(key, v)])
                              else None
                          | EmptyString => None
                          end
                      | None => None
                      end
                    else None
                | EmptyString => None
                end
            | None => None
            end
          else None
      | EmptyString => None
      end
  end.

(** The element loop of an array; [s] is at a value. *)
Fixpoint scan_elements (fuel : nat) (s : string) (acc : list json)
  : option (json * string) :=
  match fuel with
  | O => None
  | S fuel' =>
      match scan_value s with
      | Some (v, r1) =>
          match skip_ws r1 with
          | String d r2 =>
              if Ascii.eqb d "]"%char then Some (JArr (acc ++ [v]), r2)
              else if Ascii.eqb d ","%char then
                scan_elements fuel' (skip_ws r2) (acc ++ [v])
              else None
          | EmptyString => None
          end
      | None => None
      end
  end.

End Containers.

(** One value at the head of [s].  Every nested call works on a strictly
    shorter text, so a fuel of the length of the text never runs out. *)
Fixpoint scan_value (fuel : nat) (s : string) : option (json * string) :=
  match fuel with
  | O => None
  | S fuel' =>
      match s with
      | EmptyString => None
      | String a r =>
          if Ascii.eqb a dquote then
            match scan_string r with
            | Some (t, rest) => Some (JStr t, rest)
            | None => None
            end
          else if Ascii.eqb a "{"%char then
            match skip_ws r with
            | String c r' =>
                if Ascii.eqb c "}"%char then Some (JObj [], r')
                else scan_members (scan_value fuel') (String.length r)
                                  (String c r') []
            | EmptyString => None
            end
          else if Ascii.eqb a "["%char then
            match skip_ws r with
            | String c r' =>
                if Ascii.eqb c "]"%char then Some (JArr [], r')
                else scan_elements (scan_value fuel') (String.length r)
                                   (String c r') []
            | EmptyString => None
            end
          else
            match scan_literal s with
            | Some x => Some x
            | None =>
                match scan_number s with
                | Some (n, rest) => Some (JNum n, rest)
                | None => None
                end
            end
      end
  end.

(** [json.loads(s)]; [None] stands for [json.JSONDecodeError].  The
    decoder is embedded for documents within the interpreter's limits:
    nesting it decodes without [RecursionError], integer literals of at
    most 4300 digits. *)
Definition loads (s : string) : option json :=
  let t := skip_ws s in
  match scan_value (S (String.length t)) t with
  | Some (v, rest) =>
      match skip_ws rest with
      | EmptyString => Some v
      | String _ _ => None
      end
  | None => None
  end.

(** [type(v).__name__] of the Python value a decoded value becomes. *)
Definition is_float_literal (n : string) : bool :=
  any_in ["."; "e"; "E"; "N"; "I"] n.

Definition type_name (v : json) : string :=
  match v with
  | JNull => "NoneType"
  | JBool _ => "bool"
  | JNum n => if is_float_literal n then "float" else "int"
  | JStr _ => "str"
  | JArr _ => "list"
  | JObj _ => "dict"
  end.

End Json.
Import Json.

(* ================================================================== *)
(** * Log entries *)
(* ================================================================== *)

(** The dict a parsed log entry is.  The keys "timestamp_ns", "log" and
    "labels" are always there; "parsed", "level" and "message" are only
    there when the parser sets them, and then hold whatever value the
    parser found.  (The "timestamp" key, an ISO rendering of the time
    computed in floating point and local time, is left out.) *)
Module Entry.

Definition labels := list (string * string).

Record log_entry : Type := mk_log_entry {
  timestamp_ns : Z;
  log : string;
  entry_labels : labels;
  parsed : option json;
  level : option json;
  message : option json
}.

End Entry.
Import Entry.

(* ================================================================== *)
(** * error_handling.py *)
(* ================================================================== *)

Module ErrorHandling.

(** [class LokiErrorType(Enum)] *)
Inductive LokiErrorType : Set :=
| CONNECTION_REFUSED
| DNS_RESOLUTION_FAILED
| HTTP_ERROR
| TIMEOUT
| AUTHENTICATION_FAILED
| SERVICE_UNAVAILABLE
| QUERY_SYNTAX_ERROR
| RATE_LIMITED
| UNKNOWN.

Definition LokiErrorType_eqb (a b : LokiErrorType) : bool :=
  match a, b with
  | CONNECTION_REFUSED, CONNECTION_REFUSED
  | DNS_RESOLUTION_FAILED, DNS_RESOLUTION_FAILED
  | HTTP_ERROR, HTTP_ERROR
  | TIMEOUT, TIMEOUT
  | AUTHENTICATION_FAILED, AUTHENTICATION_FAILED
  | SERVICE_UNAVAILABLE, SERVICE_UNAVAILABLE
  | QUERY_SYNTAX_ERROR, QUERY_SYNTAX_ERROR
  | RATE_LIMITED, RATE_LIMITED
  | UNKNOWN, UNKNOWN => true
  | _, _ => false
  end.

(** The [.value] of an enum member. *)
Definition value (t : LokiErrorType) : string :=
  match t with
  | CONNECTION_REFUSED => "connection_refused"
  | DNS_RESOLUTION_FAILED => "dns_resolution_failed"
  | HTTP_ERROR => "http_error"
  | TIMEOUT => "timeout"
  | AUTHENTICATION_FAILED => "authentication_failed"
  | SERVICE_UNAVAILABLE => "service_unavailable"
  | QUERY_SYNTAX_ERROR => "query_syntax_error"
  | RATE_LIMITED => "rate_limited"
  | UNKNOWN => "unknown"
  end.

(** [LokiErrorClassifier.ERROR_PATTERNS]: a dict, iterated in insertion
    order, hence an association list. *)
Definition ERROR_PATTERNS : list (LokiErrorType * list string) :=
  [ (CONNECTION_REFUSED,
      ["connection refused"; "connection reset"; "no route to host"]);
    (DNS_RESOLUTION_FAILED,
      ["name or service not known"; "nodename nor servname provided";
       "temporary failure in name resolution";
       "no address associated with hostname"]);
    (HTTP_ERROR,
      ["http 4"; "http 5"; "bad request"; "internal server error"]);
    (TIMEOUT,
      ["timeout"; "timed out"; "deadline exceeded"]);
    (AUTHENTICATION_FAILED,
      ["unauthorized"; "authentication failed"; "invalid credentials";
       "access denied"]);
    (SERVICE_UNAVAILABLE,
      ["service unavailable"; "bad gateway"; "gateway timeout"]);
    (QUERY_SYNTAX_ERROR,
      ["parse error"; "syntax error"; "invalid query"; "bad logql"]);
    (RATE_LIMITED,
      ["rate limit"; "too many requests"; "quota exceeded"]) ].

(** The [for error_type, patterns in ...items()] loop of [classify_error]. *)
Fixpoint classify_loop (items : list (LokiErrorType * list string))
         (error_lower : string) : LokiErrorType :=
  match items with
  | [] => UNKNOWN
  | (error_type, patterns) :: rest =>
      if any_in patterns error_lower then error_type
      else classify_loop rest error_lower
  end.

Definition classify_error (error_message : string) : LokiErrorType :=
  let error_lower := lower error_message in
  classify_loop ERROR_PATTERNS error_lower.

(** The [messages] dict built by [get_user_friendly_message]. *)
Definition messages (loki_url : string) : list (LokiErrorType * string) :=
  [ (CONNECTION_REFUSED,
      "Loki service refused connection at " ++ loki_url
      ++ ". Check if Loki is running in the observability-hub namespace.");
    (DNS_RESOLUTION_FAILED,
      "Loki service not reachable at " ++ loki_url
      ++ ". This is expected when running locally. Deploy to OpenShift to access Loki.");
    (HTTP_ERROR,
      "HTTP error accessing Loki at " ++ loki_url
      ++ ". Check if the service is properly configured.");
    (TIMEOUT,
      "Request to Loki timed out at " ++ loki_url
      ++ ". The service may be overloaded or unreachable.");
    (AUTHENTICATION_FAILED,
      "Authentication failed when accessing Loki at " ++ loki_url
      ++ ". Check your credentials.");
    (SERVICE_UNAVAILABLE,
      "Loki service is temporarily unavailable at " ++ loki_url
      ++ ". Please try again later.");
    (QUERY_SYNTAX_ERROR,
      "LogQL query syntax error. Check your query syntax and try again.");
    (RATE_LIMITED,
      "Rate limit exceeded for Loki at " ++ loki_url
      ++ ". Please reduce query frequency.");
    (UNKNOWN,
      "Unexpected error accessing Loki at " ++ loki_url) ].

(** [d.get(key, default)] on that dict. *)
Fixpoint messages_get (d : list (LokiErrorType * string))
         (key : LokiErrorType) (default : string) : string :=
  match d with
  | [] => default
  | (k, v) :: rest =>
      if LokiErrorType_eqb k key then v else messages_get rest key default
  end.

Definition get_user_friendly_message (error_type : LokiErrorType)
           (loki_url : string) : string :=
  let m := messages loki_url in
  messages_get m error_type (messages_get m UNKNOWN EmptyString).

(** ** [class LogPatternDetector] *)

(** [v.lower()] on a dict value; [None] stands for the [AttributeError]
    a value that is not a string raises. *)
Definition str_lower (v : json) : option string :=
  match v with
  | JStr s => Some (lower s)
  | _ => None
  end.

(** [log_entry.get("level", default)] *)
Definition get_level (log_entry : log_entry) (default : string) : json :=
  match level log_entry with
  | Some v => v
  | None => JStr default
  end.

(** [log_entry.get("message", log_entry.get("log", ""))] *)
Definition get_message (log_entry : log_entry) : json :=
  match message log_entry with
  | Some v => v
  | None => JStr (log log_entry)
  end.

(** [x in [...]] on a list of strings. *)
Definition mem (x : string) (l : list string) : bool :=
  existsb (String.eqb x) l.

Definition error_levels : list string := ["error"; "fatal"; "critical"].

Definition error_patterns : list string :=
  ["error"; "failed"; "failure"; "exception"; "panic";
   "fatal"; "critical"; "crashed"; "abort"].

Definition warning_levels : list string := ["warning"; "warn"].

Definition warning_patterns : list string :=
  ["warning"; "warn"; "deprecated"; "slow"; "retry"].

Definition is_error_log (log_entry : log_entry) : option bool :=
  match str_lower (get_level log_entry EmptyString) with
  | None => None
  | Some lvl =>
      if mem lvl error_levels then Some true
      else
        match str_lower (get_message log_entry) with
        | None => None
        | Some message => Some (any_in error_patterns message)
        end
  end.

Definition is_warning_log (log_entry : log_entry) : option bool :=
  match str_lower (get_level log_entry EmptyString) with
  | None => None
  | Some lvl =>
      if mem lvl warning_levels then Some true
      else
        match str_lower (get_message log_entry) with
        | None => None
        | Some message => Some (any_in warning_patterns message)
        end
  end.

(** [d.get(key)] on a label dict. *)
Fixpoint labels_get (key : string) (d : labels) : option string :=
  match d with
  | [] => None
  | (k, v) :: rest => if String.eqb k key then Some v else labels_get key rest
  end.

(** The [error_types] dict of [extract_error_type], in insertion order. *)
Definition error_types : list (string * list string) :=
  [ ("database", ["database"; "db"; "sql"; "mysql"; "postgres"; "mongodb"]);
    ("connection", ["connection"; "connect"; "socket"; "network"]);
    ("timeout", ["timeout"; "timed out"; "deadline exceeded"]);
    ("authentication", ["auth"; "authentication"; "login"; "credentials"]);
    ("http", ["http"; "api"; "request"; "response"; "status"]);
    ("memory", ["memory"; "oom"; "out of memory"; "heap"]);
    ("disk", ["disk"; "filesystem"; "storage"; "space"]);
    ("permission", ["permission"; "access"; "denied"; "forbidden"]) ].

(** The [for error_type, keywords in error_types.items()] loop. *)
Fixpoint error_type_loop (items : list (string * list string)) (message : string)
  : string :=
  match items with
  | [] => "unknown"
  | (error_type, keywords) :: rest =>
      if any_in keywords message then error_type
      else error_type_loop rest message
  end.

Definition extract_error_type (log_entry : log_entry) : option string :=
  match str_lower (get_message log_entry) with
  | None => None
  | Some message => Some (error_type_loop error_types message)
  end.

(** [labels.get(key, default)] *)
Definition label_or (key : string) (d : labels) (default : string) : string :=
  match labels_get key d with Some v => v | None => default end.

Definition extract_service_info (log_entry : log_entry) : list (string * string) :=
  let labels := entry_labels log_entry in
  [ ("namespace", label_or "namespace" labels "unknown");
    ("service_name",
      label_or "service_name" labels (label_or "app" labels "unknown"));
    ("pod_name", label_or "pod_name" labels (label_or "pod" labels "unknown"));
    ("container", label_or "container" labels "unknown") ].

End ErrorHandling.
Import ErrorHandling.

(* ================================================================== *)
(** * models.py *)
(* ================================================================== *)

Module Models.

(** The values a response dict holds. *)
Inductive pyval : Type :=
| VBool (b : bool)
| VStr (s : string)
| VInt (n : Z)
| VLogs (entries : list log_entry).

(** [@dataclass class LogQueryResponse]; [None] is Python's [None]. *)
Record LogQueryResponse : Type := mk_LogQueryResponse {
  success : bool;
  query : string;
  logs : option (list log_entry);
  total : option Z;
  time_range : option string;
  api_endpoint : option string;
  result_type : option string;
  error : option string;
  loki_url : option string;
  error_type : option string
}.

(** [asdict(self).items()], in field order. *)
Definition asdict (self : LogQueryResponse) : list (string * option pyval) :=
  [ ("success", Some (VBool (success self)));
    ("query", Some (VStr (query self)));
    ("logs", option_map VLogs (logs self));
    ("total", option_map VInt (total self));
    ("time_range", option_map VStr (time_range self));
    ("api_endpoint", option_map VStr (api_endpoint self));
    ("result_type", option_map VStr (result_type self));
    ("error", option_map VStr (error self));
    ("loki_url", option_map VStr (loki_url self));
    ("error_type", option_map VStr (error_type self)) ].

(** [{k: v for k, v in items if v is not None}] *)
Fixpoint not_none (items : list (string * option pyval)) : list (string * pyval) :=
  match items with
  | [] => []
  | (k, Some v) :: rest => (k, v) :: not_none rest
  | (_, None) :: rest => not_none rest
  end.

Definition to_dict (self : LogQueryResponse) : list (string * pyval) :=
  not_none (asdict self).

(** Reading a response dict: [d.get(k)] and [k in d]. *)
Fixpoint lookup (k : string) (d : list (string * pyval)) : option pyval :=
  match d with
  | [] => None
  | (k', v) :: rest => if String.eqb k' k then Some v else lookup k rest
  end.

Definition has_key (k : string) (d : list (string * pyval)) : bool :=
  match lookup k d with Some _ => true | None => false end.


(** ** [LogDetailsResponse] *)

(** The values a details dict holds: the flag, and decoded values or
    strings (a string is [JStr]). *)
Inductive detail_val : Type :=
| DBool (b : bool)
| DValue (v : json).

(** [@dataclass class LogDetailsResponse]; [data] and [error] are [None]
    when they are Python's [None]. *)
Record LogDetailsResponse : Type := mk_LogDetailsResponse {
  details_success : bool;
  details_data : option json;
  details_error : option json
}.

(** [asdict(self).items()] keeps the three fields in order; [to_dict] drops
    the ones that are [None]. *)
Definition details_to_dict (self : LogDetailsResponse) : list (string * detail_val) :=
  (("success", DBool (details_success self))
     :: match details_data self with Some v => [("data", DValue v)] | None => [] end)
  ++ match details_error self with Some v => [("error", DValue v)] | None => [] end.

Fixpoint details_lookup (k : string) (d : list (string * detail_val))
  : option detail_val :=
  match d with
  | [] => None
  | (k', v) :: rest => if String.eqb k' k then Some v else details_lookup k rest
  end.

End Models.

(* ================================================================== *)
(** * query_tool.py *)
(* ================================================================== *)

Module QueryTool.

(** [class LokiQueryTool]: the configuration read by [__init__]. *)
Record LokiQueryTool : Type := mk_LokiQueryTool {
  loki_url : string
}.

(** The backend's result: streams, each with a label set and a list of
    values; a value is the list [[time, line]] of two strings. *)
Record stream_t : Type := mk_stream {
  stream : option labels;
  values : option (list (list string))
}.

Record result_data_t : Type := mk_result_data {
  result : option (list stream_t);
  resultType : option string
}.

(** The exceptions the parser lets through. *)
Inductive exn : Type :=
| ValueError_int (literal : string)
| AttributeError_get (v : json).

(** [str(e)] *)
Definition str_exn (e : exn) : string :=
  match e with
  | ValueError_int literal =>
      "invalid literal for int() with base 10: " ++ repr literal
  | AttributeError_get v =>
      "'" ++ type_name v ++ "' object has no attribute 'get'"
  end.

(** [r'\b(DEBUG|INFO|WARN|WARNING|ERROR|FATAL|CRITICAL)\b'] *)
Definition level_words : list string :=
  ["DEBUG"; "INFO"; "WARN"; "WARNING"; "ERROR"; "FATAL"; "CRITICAL"].

Definition level_re : Re.regex :=
  Re.Seq Re.WordB (Re.Seq (Re.Group 1 (Re.alts level_words)) Re.WordB).

(** [re.search(..., log_line, re.IGNORECASE)] *)
Definition level_match (log_line : string) : option Re.captures :=
  Re.search true level_re log_line.

(** The level the [except] branch infers from plain text; the folding of
    case, in the search and in [lower], is that of ASCII lines. *)
Definition plain_text_level (log_line : string) : string :=
  match level_match log_line with
  | Some m => lower (Re.group 1 m)
  | None => "unknown"
  end.

(** [log_line.strip().startswith('{') and log_line.strip().endswith('}')] *)
Definition looks_like_object (log_line : string) : bool :=
  starts_with_char "{"%char (strip log_line)
  && ends_with_char "}"%char (strip log_line).

(** The [try ... except (json.JSONDecodeError, ValueError)] block applied
    to the entry built so far. *)
Definition parse_structured (log_line : string) (entry : log_entry)
  : exn + log_entry :=
  if looks_like_object log_line then
    match loads log_line with
    | Some parsed_log =>
        match parsed_log with
        | JObj d =>
            inr {| timestamp_ns := timestamp_ns entry;
                   log := log entry;
                   entry_labels := entry_labels entry;
                   parsed := Some parsed_log;
                   level := Some (get "level" d (JStr "unknown"));
                   message :=
                     Some (get "message" d (get "msg" d (JStr log_line))) |}
        | _ => inl (AttributeError_get parsed_log)
        end
    | None =>
        inr {| timestamp_ns := timestamp_ns entry;
               log := log entry;
               entry_labels := entry_labels entry;
               parsed := parsed entry;
               level := Some (JStr (plain_text_level log_line));
               message := Some (JStr log_line) |}
    end
  else inr entry.

(** The body of [for value in values]. *)
Definition parse_value (stream_labels : labels) (value : list string)
  : exn + option log_entry :=
  match value with
  | v0 :: log_line :: _ =>
      match py_int v0 with
      | None => inl (ValueError_int v0)
      | Some ts =>
          let log_entry :=
            {| timestamp_ns := ts; log := log_line;
               entry_labels := stream_labels;
               parsed := None; level := None; message := None |} in
          match parse_structured log_line log_entry with
          | inl e => inl e
          | inr entry => inr (Some entry)
          end
      end
  | _ => inr None
  end.

Fixpoint parse_values (stream_labels : labels) (values : list (list string))
         (log_entries : list log_entry) : exn + list log_entry :=
  match values with
  | [] => inr log_entries
  | value :: rest =>
      match parse_value stream_labels value with
      | inl e => inl e
      | inr (Some entry) => parse_values stream_labels rest (log_entries ++ [entry])
      | inr None => parse_values stream_labels rest log_entries
      end
  end.

Fixpoint parse_streams (streams : list stream_t) (log_entries : list log_entry)
  : exn + list log_entry :=
  match streams with
  | [] => inr log_entries
  | s :: rest =>
      let stream_labels := match stream s with Some l => l | None => [] end in
      let vals := match values s with Some v => v | None => [] end in
      match parse_values stream_labels vals log_entries with
      | inl e => inl e
      | inr log_entries' => parse_streams rest log_entries'
      end
  end.

Definition _parse_log_entries (result_data : result_data_t)
  : exn + list log_entry :=
  match result result_data with
  | Some streams => parse_streams streams []
  | None => inr []
  end.

(** The decoded body of a response. *)
Record loki_data_t : Type := mk_loki_data {
  status : option string;
  error : option string;
  data : option result_data_t
}.

(** What the network round trip of one call comes to: an exception
    raised inside the [try] block before a response is in hand ([e] is
    [str(e)]; a time [fromisoformat] does not read and a transport fault
    both end here), or a response with its status code, its text and the
    outcome of [response.json()]. *)
Inductive exchange : Type :=
| Raised (e : string)
| Responded (status_code : Z) (text : string) (body : string + loki_data_t).

Definition query_url (self : LokiQueryTool) : string :=
  loki_url self ++ "/api/logs/v1/application/loki/api/v1/query_range".

(** The [except Exception as e] handler. *)
Definition on_exception (self : LokiQueryTool) (logql : string) (error_msg : string)
  : list (string * Models.pyval) :=
  let error_type := classify_error error_msg in
  let user_friendly_msg := get_user_friendly_message error_type (loki_url self) in
  Models.to_dict
    {| Models.success := false;
       Models.query := logql;
       Models.logs := None;
       Models.total := None;
       Models.time_range := None;
       Models.api_endpoint := None;
       Models.result_type := None;
       Models.error := Some user_friendly_msg;
       Models.loki_url := Some (loki_url self);
       Models.error_type := Some (value error_type) |}.

Definition query_logs (self : LokiQueryTool)
           (logql start_time end_time : string) (x : exchange)
  : list (string * Models.pyval) :=
  match x with
  | Raised e => on_exception self logql e
  | Responded status_code text body =>
      if (status_code =? 200)%Z then
        match body with
        | inl e => on_exception self logql e
        | inr loki_data =>
            if match status loki_data with
               | Some st => String.eqb st "success"
               | None => false
               end
            then
              let result_data :=
                match data loki_data with
                | Some d => d
                | None => {| result := None; resultType := None |}
                end in
              match _parse_log_entries result_data with
              | inl e => on_exception self logql (str_exn e)
              | inr log_entries =>
                  Models.to_dict
                    {| Models.success := true;
                       Models.query := logql;
                       Models.logs := Some log_entries;
                       Models.total := Some (Z.of_nat (List.length log_entries));
                       Models.time_range := Some (start_time ++ " to " ++ end_time);
                       Models.api_endpoint := Some (query_url self);
                       Models.result_type :=
                         Some (match resultType result_data with
                               | Some t => t
                               | None => "streams"
                               end);
                       Models.error := None;
                       Models.loki_url := None;
                       Models.error_type := None |}
              end
            else
              let error_msg :=
                match error loki_data with
                | Some m => m
                | None => "Unknown Loki error"
                end in
              Models.to_dict
                {| Models.success := false;
                   Models.query := logql;
                   Models.logs := None;
                   Models.total := None;
                   Models.time_range := None;
                   Models.api_endpoint := Some (query_url self);
                   Models.result_type := None;
                   Models.error := Some ("Loki query failed: " ++ error_msg);
                   Models.loki_url := None;
                   Models.error_type := None |}
        end
      else
        Models.to_dict
          {| Models.success := false;
             Models.query := logql;
             Models.logs := None;
             Models.total := None;
             Models.time_range := None;
             Models.api_endpoint := Some (query_url self);
             Models.result_type := None;
             Models.error :=
               Some ("Loki API query failed: HTTP " ++ str_of_Z status_code
                     ++ " - " ++ text);
             Models.loki_url := None;
             Models.error_type := None |}
  end.

(** ** Credentials and headers *)

Definition K8S_SERVICE_ACCOUNT_TOKEN_PATH : string :=
  "/var/run/secrets/kubernetes.io/serviceaccount/token".
Definition COLLECTOR_TOKEN_PATH : string := "/var/run/secrets/loki/collector-token".
Definition DEV_FALLBACK_TOKEN : string := "dev-token".

(** What [open(path, 'r')] followed by [f.read()] comes to. *)
Inductive file_read : Type :=
| FileNotFound
| ReadFails (e : string)
| Content (text : string).

(** The process environment the token is resolved from: the variable
    LOKI_TOKEN and the two mounted files. *)
Record environment : Type := mk_environment {
  LOKI_TOKEN : option string;
  collector_token_file : file_read;
  service_account_token_file : file_read
}.

(** [_get_service_account_token]; [inl e] is an exception other than
    [FileNotFoundError], which the method lets through. *)
Definition _get_service_account_token (env : environment) : string + string :=
  let from_files :=
    match collector_token_file env with
    | Content text => inr (strip text)
    | ReadFails e => inl e
    | FileNotFound =>
        match service_account_token_file env with
        | Content text => inr (strip text)
        | ReadFails e => inl e
        | FileNotFound => inr DEV_FALLBACK_TOKEN
        end
    end in
  match LOKI_TOKEN env with
  | Some loki_token => if truthy loki_token then inr loki_token else from_files
  | None => from_files
  end.

(** [_get_request_headers]: the headers dict, in insertion order. *)
Definition _get_request_headers (env : environment) : list (string * string) :=
  let headers := [("Content-Type", "application/json")] in
  match _get_service_account_token env with
  | inr token =>
      if truthy token && negb (String.eqb token DEV_FALLBACK_TOKEN)
      then List.app headers [("Authorization", "Bearer " ++ token)]
      else headers
  | inl _ => headers
  end.

(** ** [query_log_volume] *)

(** Truth value of an optional string argument. *)
Definition given (a : option string) : bool :=
  match a with Some t => truthy t | None => false end.

Definition text_of (a : option string) : string :=
  match a with Some t => t | None => "None" end.

Definition volume_base_query (namespace service : option string) : string :=
  if given namespace && given service then
    "{namespace=" ++ dq ++ text_of namespace ++ dq ++ ", service_name="
      ++ dq ++ text_of service ++ dq ++ "}"
  else if given namespace then
    "{namespace=" ++ dq ++ text_of namespace ++ dq ++ "}"
  else if given service then
    "{service_name=" ++ dq ++ text_of service ++ dq ++ "}"
  else "{job=" ++ dq ++ "application" ++ dq ++ "}".

Definition volume_query (namespace service : option string) (interval : string)
  : string :=
  "sum by (namespace, service_name) (count_over_time("
    ++ volume_base_query namespace service ++ "[" ++ interval ++ "]))".

Definition query_log_volume (self : LokiQueryTool)
           (namespace service : option string)
           (start_time end_time interval : string) (x : exchange)
  : list (string * Models.pyval) :=
  query_logs self (volume_query namespace service interval) start_time end_time x.

(** ** What the parser is given *)

(** The line of a value the parser makes an entry of: a value with fewer
    than two elements is passed over. *)
Definition value_line (value : list string) : list string :=
  match value with
  | _ :: log_line :: _ => [log_line]
  | _ => []
  end.

Definition stream_lines (s : stream_t) : list string :=
  flat_map value_line (match values s with Some v => v | None => [] end).

Definition result_lines (result_data : result_data_t) : list string :=
  match result result_data with
  | Some streams => flat_map stream_lines streams
  | None => []
  end.

(** The time of every value that has a line reads as an integer. *)
Definition value_timed (value : list string) : bool :=
  match value with
  | v0 :: _ :: _ => match py_int v0 with Some _ => true | None => false end
  | _ => true
  end.

Definition stream_timed (s : stream_t) : bool :=
  forallb value_timed (match values s with Some v => v | None => [] end).

Definition result_timed (result_data : result_data_t) : bool :=
  match result result_data with
  | Some streams => forallb stream_timed streams
  | None => true
  end.

(** ** The values the embedding of the parser covers *)

(** The opening brackets and braces of a line: a bound on the nesting of
    the document [json.loads] is given. *)
Fixpoint bracket_count (s : string) : nat :=
  match s with
  | EmptyString => 0
  | String a r =>
      (if (code a =? 91)%nat || (code a =? 123)%nat then 1 else 0)
      + bracket_count r
  end.

(** A line the decoder is embedded for: ASCII text that nests at most 100
    deep (deeper documents make [json.loads] raise [RecursionError] once the
    interpreter's stack, of 1000 frames by default, runs out) and has at
    most 4300 characters (an integer literal of more digits makes the
    decoder raise [ValueError]). *)
Definition line_within_limits (log_line : string) : bool :=
  all_chars is_ascii log_line
  && (bracket_count log_line <=? 100)%nat
  && (String.length log_line <=? 4300)%nat.

(** A value the parser is embedded for: the time is ASCII text of at most
    19 characters (a nanosecond time before the year 2286, which
    [fromtimestamp] renders) and the line is within the limits above. *)
Definition value_within_limits (value : list string) : bool :=
  match value with
  | v0 :: log_line :: _ =>
      all_chars is_ascii v0 && (String.length v0 <=? 19)%nat
      && line_within_limits log_line
  | _ => true
  end.

Definition stream_within_limits (s : stream_t) : bool :=
  forallb value_within_limits (match values s with Some v => v | None => [] end).

Definition result_within_limits (result_data : result_data_t) : bool :=
  match result result_data with
  | Some streams => forallb stream_within_limits streams
  | None => true
  end.

(** ** [get_log_labels], [get_label_values] *)

(** A decoded value as the Python value it is: JSON null is [None]. *)
Definition py_value (v : json) : option json :=
  match v with
  | JNull => None
  | _ => Some v
  end.

(** What the request of a label method comes to: an exception raised
    before a response is in hand, or a response with its status code, its
    text and the outcome of [response.json()], which may be any decoded
    value. *)
Inductive details_exchange : Type :=
| DetailsRaised (e : string)
| DetailsResponded (status_code : Z) (text : string) (body : string + json).

(** The [except Exception as e] handler of both methods. *)
Definition details_on_exception (e : string) : list (string * Models.detail_val) :=
  Models.details_to_dict
    {| Models.details_success := false;
       Models.details_data := None;
       Models.details_error := Some (JStr e) |}.

(** [len(v)] on a decoded value: the text of the [TypeError] raised when
    the value has no length. *)
Definition len_error (v : json) : option string :=
  match v with
  | JNull | JBool _ | JNum _ =>
      Some ("object of type '" ++ type_name v ++ "' has no len()")
  | JStr _ | JArr _ | JObj _ => None
  end.

(** [v[:10]] on a decoded value: the text of the [TypeError] raised when
    the value cannot be sliced (for a dict, as CPython up to 3.11 words it). *)
Definition slice_error (v : json) : option string :=
  match v with
  | JNull | JBool _ | JNum _ =>
      Some ("'" ++ type_name v ++ "' object is not subscriptable")
  | JObj _ => Some "unhashable type: 'slice'"
  | JStr _ | JArr _ => None
  end.

(** The message [get_log_labels] logs before it returns evaluates
    [len(labels)]. *)
Definition labels_logged (labels : json) : option string :=
  len_error labels.

(** The message [get_label_values] logs before it returns evaluates
    [len(values)], then [values[:10]]. *)
Definition values_logged (values : json) : option string :=
  match len_error values with
  | Some e => Some e
  | None => slice_error values
  end.

(** What both methods do with the outcome of their request; [logged] is
    the exception, if any, that building the logged message raises. *)
Definition details_of_exchange (logged : json -> option string)
           (x : details_exchange) : list (string * Models.detail_val) :=
  match x with
  | DetailsRaised e => details_on_exception e
  | DetailsResponded status_code text body =>
      if (status_code =? 200)%Z then
        match body with
        | inl e => details_on_exception e
        | inr (JObj data) =>
            if match dict_get "status" data with
               | Some (JStr st) => String.eqb st "success"
               | _ => false
               end
            then
              let labels := get "data" data (JArr []) in
              match logged labels with
              | Some e => details_on_exception e
              | None =>
                  Models.details_to_dict
                    {| Models.details_success := true;
                       Models.details_data := py_value labels;
                       Models.details_error := None |}
              end
            else
              Models.details_to_dict
                {| Models.details_success := false;
                   Models.details_data := None;
                   Models.details_error :=
                     py_value (get "error" data (JStr "Unknown error")) |}
        | inr v =>
            details_on_exception
              ("'" ++ type_name v ++ "' object has no attribute 'get'")
        end
      else
        Models.details_to_dict
          {| Models.details_success := false;
             Models.details_data := None;
             Models.details_error :=
               Some (JStr ("HTTP " ++ str_of_Z status_code ++ ": " ++ text)) |}
  end.

Definition get_log_labels (self : LokiQueryTool) (x : details_exchange)
  : list (string * Models.detail_val) :=
  details_of_exchange labels_logged x.

Definition get_label_values (self : LokiQueryTool) (label_name : string)
           (x : details_exchange) : list (string * Models.detail_val) :=
  details_of_exchange values_logged x.

End QueryTool.

(* ================================================================== *)
(** * Time conversion ([query_tool.py], [datetime], [float]) *)
(* ================================================================== *)

(** Python's [float] is IEEE 754 binary64; its values and operations are
    those of the Standard Library's specification of the format, at
    precision 53 and maximal exponent 1024. *)
Module Float64.
Import SpecFloat.
Local Open Scope Z_scope.

Definition float : Type := spec_float.

Definition prec : Z := 53.
Definition emax : Z := 1024.

Definition mul : float -> float -> float := SFmul prec emax.
Definition div : float -> float -> float := SFdiv prec emax.
Definition eqb : float -> float -> bool := SFeqb.

(** The float nearest to [m * 2^e] (ties to even), with the sign [s] when
    [m] is zero. *)
Definition of_scaled (s : bool) (m e : Z) : float :=
  binary_normalize prec emax (if s then - m else m) e s.

(** [float(n)] of an int: the nearest float; [None] stands for
    [OverflowError]. *)
Definition of_int (n : Z) : option float :=
  match binary_normalize prec emax n 0 false with
  | S754_infinity _ => None
  | x => Some x
  end.

(** An int as an operand not yet rounded. *)
Definition operand (n : Z) : float :=
  match n with
  | Z0 => S754_zero false
  | Zpos p => S754_finite false p 0
  | Zneg p => S754_finite true p 0
  end.

(** [a / b] of two ints: the float nearest to the quotient; [None] stands
    for [ZeroDivisionError] and [OverflowError]. *)
Definition true_divide (a b : Z) : option float :=
  if (b =? 0)%Z then None
  else match div (operand a) (operand b) with
       | S754_infinity _ => None
       | x => Some x
       end.

(** [int(x)]: truncation towards zero; [None] stands for the
    [OverflowError] and [ValueError] on infinities and NaN. *)
Definition to_int (x : float) : option Z :=
  match x with
  | S754_zero _ => Some 0%Z
  | S754_finite s m e =>
      let v := Z.shiftl (Zpos m) e in
      Some (if s then - v else v)%Z
  | S754_infinity _ | S754_nan => None
  end.



Definition billion : float := of_scaled false 1000000000 0.

End Float64.

Module Timestamps.
Local Open Scope Z_scope.

(** ** The calendar of [datetime] *)

(** A [datetime] without zone: the proleptic Gregorian date and the time
    of day. *)
Record datetime : Type := mk_datetime {
  year : Z;
  month : Z;
  day : Z;
  hour : Z;
  minute : Z;
  second : Z;
  microsecond : Z
}.

(** An aware [datetime]: the fields and the offset of its zone from UTC,
    in seconds. *)
Record aware_datetime : Type := mk_aware {
  fields : datetime;
  utcoffset : Z
}.

Definition is_leap (y : Z) : bool :=
  ((y mod 4 =? 0) && negb (y mod 100 =? 0) || (y mod 400 =? 0))%Z.

Definition days_in_month (y m : Z) : Z :=
  if (m =? 2)%Z then (if is_leap y then 29 else 28)
  else if ((m =? 4) || (m =? 6) || (m =? 9) || (m =? 11))%Z then 30
  else 31.

(** The days from 1970-01-01 to the date [y]-[m]-[d]. *)
Definition days_from_civil (y m d : Z) : Z :=
  let y' := if (m <=? 2)%Z then y - 1 else y in
  let era := y' / 400 in
  let yoe := y' - era * 400 in
  let doy := (153 * (if (2 <? m)%Z then m - 3 else m + 9) + 2) / 5 + d - 1 in
  let doe := yoe * 365 + yoe / 4 - yoe / 100 + doy in
  era * 146097 + doe - 719468.


(** The seconds from the epoch to the fields of [dt] read in UTC. *)
Definition utc_seconds (dt : datetime) : Z :=
  days_from_civil (year dt) (month dt) (day dt) * 86400
  + hour dt * 3600 + minute dt * 60 + second dt.


(** The checks of the [datetime] constructor. *)
Definition valid (dt : datetime) : bool :=
  ((1 <=? year dt) && (year dt <=? 9999)
   && (1 <=? month dt) && (month dt <=? 12)
   && (1 <=? day dt) && (day dt <=? days_in_month (year dt) (month dt))
   && (0 <=? hour dt) && (hour dt <=? 23)
   && (0 <=? minute dt) && (minute dt <=? 59)
   && (0 <=? second dt) && (second dt <=? 59)
   && (0 <=? microsecond dt) && (microsecond dt <=? 999999))%Z.

(** ** [datetime.fromisoformat] *)

(** [n] decimal digits at the head of [s]. *)
Fixpoint read_digits (n : nat) (acc : Z) (s : string) : option (Z * string) :=
  match n with
  | O => Some (acc, s)
  | S n' =>
      match s with
      | String a r =>
          if is_digit a then read_digits n' (10 * acc + digit_val a) r else None
      | EmptyString => None
      end
  end.

Definition expect (c : ascii) (s : string) : option string :=
  match s with
  | String a r => if Ascii.eqb a c then Some r else None
  | EmptyString => None
  end.

Fixpoint digit_run (s : string) : string * string :=
  match s with
  | String a r =>
      if is_digit a then let '(d, rest) := digit_run r in (String a d, rest)
      else (EmptyString, s)
  | EmptyString => (EmptyString, EmptyString)
  end.

Fixpoint take (n : nat) (s : string) : string :=
  match n, s with
  | S n', String a r => String a (take n' r)
  | _, _ => EmptyString
  end.

(** The fraction of a second: of the digits after the point the first six
    count, as microseconds; further digits are dropped. *)
Definition read_fraction (s : string) : option (Z * string) :=
  match s with
  | String a r =>
      if Ascii.eqb a "."%char || Ascii.eqb a ","%char then
        let '(ds, rest) := digit_run r in
        match ds with
        | EmptyString => None
        | _ =>
            let used := take 6 ds in
            Some (int_of_digits used * 10 ^ Z.of_nat (6 - String.length used),
                  rest)
        end
      else Some (0, s)
  | EmptyString => Some (0, s)
  end.

(** The offset [+HH:MM] or [-HH:MM] that ends the text, in seconds: it
    must be strictly between minus and plus 24 hours. *)
Definition read_offset (s : string) : option Z :=
  match s with
  | String sign r =>
      if Ascii.eqb sign "+"%char || Ascii.eqb sign "-"%char then
        match read_digits 2 0 r with
        | Some (hh, r1) =>
            match expect ":"%char r1 with
            | Some r2 =>
                match read_digits 2 0 r2 with
                | Some (mm, EmptyString) =>
                    let off := hh * 3600 + mm * 60 in
                    if (off <? 86400)%Z
                    then Some (if Ascii.eqb sign "-"%char then - off else off)
                    else None
                | _ => None
                end
            | None => None
            end
        | None => None
        end
      else None
  | EmptyString => None
  end.

Definition bind {A B : Type} (x : option A) (f : A -> option B) : option B :=
  match x with
  | Some a => f a
  | None => None
  end.

Local Notation "x <- e ;; k" := (bind e (fun x => k))
  (at level 61, e at next level, right associativity).
Local Notation "' p <- e ;; k" := (bind e (fun p => k))
  (at level 61, p pattern, e at next level, right associativity).

(** [datetime.fromisoformat] on the form the docstrings of the query tool
    ask for, [YYYY-MM-DDTHH:MM:SS], an optional fraction of a second, and
    an offset [+HH:MM] or [-HH:MM].  [None] is returned on any other text:
    text [fromisoformat] rejects with [ValueError], and the other forms of
    ISO 8601 it reads (a date alone, the basic format, week dates, a time
    without seconds or without offset), which are not embedded. *)
Definition fromisoformat (s : string) : option aware_datetime :=
  '(y, s) <- read_digits 4 0 s ;;
  s <- expect "-"%char s ;;
  '(m, s) <- read_digits 2 0 s ;;
  s <- expect "-"%char s ;;
  '(d, s) <- read_digits 2 0 s ;;
  s <- expect "T"%char s ;;
  '(hh, s) <- read_digits 2 0 s ;;
  s <- expect ":"%char s ;;
  '(mi, s) <- read_digits 2 0 s ;;
  s <- expect ":"%char s ;;
  '(ss, s) <- read_digits 2 0 s ;;
  '(us, s) <- read_fraction s ;;
  off <- read_offset s ;;
  let dt := {| year := y; month := m; day := d;
               hour := hh; minute := mi; second := ss; microsecond := us |} in
  if valid dt then Some {| fields := dt; utcoffset := off |} else None.

(** [s.replace('Z', '+00:00')] *)
Fixpoint replace_Z (s : string) : string :=
  match s with
  | EmptyString => EmptyString
  | String a r =>
      if Ascii.eqb a "Z"%char then "+00:00" ++ replace_Z r
      else String a (replace_Z r)
  end.

(** ** To the backend's unit *)

(** The microseconds from the epoch to an aware [datetime]: the
    [timedelta] [dt - _EPOCH], which is exact. *)
Definition microseconds_since_epoch (dt : aware_datetime) : Z :=
  (utc_seconds (fields dt) - utcoffset dt) * 1000000 + microsecond (fields dt).

(** [dt.timestamp()] of an aware [datetime]:
    [(dt - _EPOCH).total_seconds()], the microseconds since the epoch
    divided by [10**6]. *)
Definition timestamp (dt : aware_datetime) : option Float64.float :=
  Float64.true_divide (microseconds_since_epoch dt) 1000000.

(** [int(dt.timestamp() * 1_000_000_000)] *)
Definition nanoseconds (dt : aware_datetime) : option Z :=
  ts <- timestamp dt ;;
  Float64.to_int (Float64.mul ts Float64.billion).

(** One half of [_convert_timestamps_to_nanoseconds]. *)
Definition to_nanoseconds (time : string) : option Z :=
  dt <- fromisoformat (replace_Z time) ;;
  nanoseconds dt.

Definition _convert_timestamps_to_nanoseconds (start_time end_time : string)
  : option (Z * Z) :=
  start_ns <- to_nanoseconds start_time ;;
  end_ns <- to_nanoseconds end_time ;;
  Some (start_ns, end_ns).

(** ** Back to a timestamp *)











End Timestamps.

(* ================================================================== *)
(** * mcp_tools.py *)
(* ================================================================== *)

Module McpTools.

(** The severity counting of the loops of [query_loki_tool] and
    [chat_loki_tool]:
    [if is_error_log(e): error += 1 elif is_warning_log(e): warning += 1].
    [None] stands for the exception a detector raises. *)
Fixpoint count_levels (logs : list log_entry) (error_count warning_count : nat)
  : option (nat * nat) :=
  match logs with
  | [] => Some (error_count, warning_count)
  | log_entry :: rest =>
      match is_error_log log_entry with
      | None => None
      | Some true => count_levels rest (S error_count) warning_count
      | Some false =>
          match is_warning_log log_entry with
          | None => None
          | Some true => count_levels rest error_count (S warning_count)
          | Some false => count_levels rest error_count warning_count
          end
      end
  end.

(** ** [extract_time_range_from_question] and the window of [chat_loki_tool] *)

Definition extract_time_range_from_question (question : string) : string :=
  let question_lower := lower question in
  if str_in "last 24 hours" question_lower || str_in "last 24h" question_lower
     || str_in "yesterday" question_lower then "last 24h"
  else if str_in "last week" question_lower || str_in "last 7 days" question_lower
  then "last 7d"
  else if str_in "last month" question_lower || str_in "last 30 days" question_lower
  then "last 30d"
  else if str_in "last 2 hours" question_lower || str_in "last 2h" question_lower
  then "last 2h"
  else if str_in "last 6 hours" question_lower || str_in "last 6h" question_lower
  then "last 6h"
  else if str_in "last 12 hours" question_lower || str_in "last 12h" question_lower
  then "last 12h"
  else if str_in "last hour" question_lower || str_in "last 1h" question_lower
  then "last 1h"
  else if str_in "last 30 minutes" question_lower || str_in "last 30m" question_lower
  then "last 30m"
  else if str_in "last 15 minutes" question_lower || str_in "last 15m" question_lower
  then "last 15m"
  else if str_in "last 5 minutes" question_lower || str_in "last 5m" question_lower
  then "last 5m"
  else "last 2h".

(** [s[n:]] and [s[:-1]] *)
Fixpoint drop (n : nat) (s : string) : string :=
  match n, s with
  | O, _ => s
  | S n', String _ r => drop n' r
  | S _, EmptyString => EmptyString
  end.

Fixpoint but_last (s : string) : string :=
  match s with
  | EmptyString => EmptyString
  | String _ EmptyString => EmptyString
  | String a r => String a (but_last r)
  end.

(** The part of [chat_loki_tool] that turns the extracted range into the
    length of the window, [now - start_time], in seconds.  [None] stands for
    the [ValueError] of [int]. *)
Definition window_seconds (extracted_time_range : string) : option Z :=
  if startswith "last " extracted_time_range then
    let duration_str := drop 5 extracted_time_range in
    if ends_with_char "h"%char duration_str then
      option_map (fun hours => hours * 3600)%Z (py_int (but_last duration_str))
    else if ends_with_char "d"%char duration_str then
      option_map (fun days => days * 86400)%Z (py_int (but_last duration_str))
    else if ends_with_char "m"%char duration_str then
      option_map (fun minutes => minutes * 60)%Z (py_int (but_last duration_str))
    else Some (2 * 3600)%Z
  else Some (2 * 3600)%Z.

(** ** The tallies of [analyze_error_logs_tool] *)

(** [d[key] = d.get(key, 0) + 1] on a dict of counters, kept in insertion
    order. *)
Fixpoint bump (key : string) (d : list (string * nat)) : list (string * nat) :=
  match d with
  | [] => [(key, 1%nat)]
  | (k, n) :: rest =>
      if String.eqb k key then (k, S n) :: rest else (k, n) :: bump key rest
  end.

(** [service_info["service_name"]] *)
Definition service_name_of (log_entry : log_entry) : string :=
  match labels_get "service_name" (extract_service_info log_entry) with
  | Some v => v
  | None => EmptyString
  end.

(** The loop over the logs that fills [error_types] and
    [services_with_errors]; [None] stands for the exception
    [extract_error_type] raises. *)
Fixpoint tally_errors (logs : list log_entry)
         (error_types services_with_errors : list (string * nat))
  : option (list (string * nat) * list (string * nat)) :=
  match logs with
  | [] => Some (error_types, services_with_errors)
  | log_entry :: rest =>
      match extract_error_type log_entry with
      | None => None
      | Some error_type =>
          tally_errors rest (bump error_type error_types)
                       (bump (service_name_of log_entry) services_with_errors)
      end
  end.

(** The sum of the counters of a dict. *)
Fixpoint tally_total (d : list (string * nat)) : nat :=
  match d with
  | [] => 0
  | (_, n) :: rest => n + tally_total rest
  end.

(** ** The failure text of [query_loki_tool] *)

Definition LF : string := String "010"%char EmptyString.

Definition deployment_note : string :=
  LF ++ LF
  ++ "💡 **Note**: To use Loki queries, deploy the MCP server to OpenShift where Loki is running."
  ++ LF
  ++ "   Local development cannot access the Loki service in the observability-hub namespace."
  ++ LF.

(** The text returned for an envelope that is not successful, from its
    "error". *)
Definition failure_text (error : string) : string :=
  if str_in "not reachable" error || str_in "not known" error
  then error ++ deployment_note
  else error.

End McpTools.

(* ================================================================== *)
(** * logql_service.py *)
(* ================================================================== *)

Module LogqlService.

(** [f'{selector} |~ "pattern"'] and [f'{selector} | parser | field="v"'] *)
Definition line_match (selector pattern : string) : string :=
  selector ++ " |~ " ++ dq ++ pattern ++ dq.

Definition quoted (text : string) : string := dq ++ text ++ dq.

(** Smart interval selection.  [duration_hours] is
    [duration_seconds / 3600]; the comparisons with 1, 6 and 24 hours are
    taken on the seconds. *)
Definition select_rate_interval (start_ts end_ts : Z) : string :=
  let duration_seconds := (end_ts - start_ts)%Z in
  if (duration_seconds <=? 3600)%Z then "5m"
  else if (duration_seconds <=? 21600)%Z then "15m"
  else if (duration_seconds <=? 86400)%Z then "1h"
  else "6h".

(** [not namespace] *)
Definition no_namespace (namespace : option string) : bool :=
  match namespace with
  | Some n => negb (truthy n)
  | None => true
  end.

Definition namespace_text (namespace : option string) : string :=
  match namespace with Some n => n | None => "None" end.

Definition base_selector_of (namespace : option string) (is_fleet_wide : bool)
  : string :=
  if is_fleet_wide || no_namespace namespace then "{job=" ++ quoted "application" ++ "}"
  else "{namespace=" ++ quoted (namespace_text namespace) ++ "}".

Definition namespace_filter_of (namespace : option string) (is_fleet_wide : bool)
  : string :=
  if is_fleet_wide || no_namespace namespace then EmptyString
  else ", namespace=" ++ quoted (namespace_text namespace).

(** The keyword sets of the branches, in the order they are tested. *)
Definition error_words : list string :=
  ["error"; "errors"; "failed"; "failure"; "exception"; "panic"; "fatal"; "critical"].
Definition warning_words : list string := ["warning"; "warn"; "warnings"].
Definition performance_words : list string :=
  ["slow"; "performance"; "latency"; "response time"; "timeout"].
Definition http_words : list string :=
  ["http"; "api"; "request"; "response"; "status"; "endpoint"].
Definition auth_words : list string :=
  ["auth"; "authentication"; "login"; "logout"; "security"; "unauthorized"; "forbidden"].
Definition database_words : list string :=
  ["database"; "db"; "sql"; "query"; "connection"].
Definition lifecycle_words : list string :=
  ["startup"; "start"; "boot"; "shutdown"; "restart"; "deploy"].
Definition service_words : list string := ["service"; "pod"; "container"].
Definition volume_words : list string :=
  ["volume"; "count"; "frequency"; "rate"; "how many"; "total"].

(** [service_patterns] *)
Definition service_patterns : list Re.regex :=
  [ Re.Seq (Re.Lit "service") (Re.Seq (Re.Plus is_space) (Re.Group 1 (Re.Plus is_word)));
    Re.Seq (Re.Group 1 (Re.Plus is_word)) (Re.Seq (Re.Plus is_space) (Re.Lit "service"));
    Re.Seq (Re.Lit "pod") (Re.Seq (Re.Plus is_space) (Re.Group 1 (Re.Plus is_word)));
    Re.Seq (Re.Lit "container") (Re.Seq (Re.Plus is_space) (Re.Group 1 (Re.Plus is_word))) ].

(** The [for pattern in service_patterns] loop, with its [break]. *)
Fixpoint find_service_name (patterns : list Re.regex) (question_lower : string)
  : option string :=
  match patterns with
  | [] => None
  | pattern :: rest =>
      match Re.search false pattern question_lower with
      | Some m => Some (Re.group 1 m)
      | None => find_service_name rest question_lower
      end
  end.

Definition error_branch (question_lower base_selector : string) : list string :=
  let error_queries :=
    [ line_match base_selector "(?i)(error|failed|failure|exception|panic|fatal|critical)";
      base_selector ++ " | json | level=" ++ quoted "error";
      base_selector ++ " | logfmt | level=" ++ quoted "error" ] in
  let error_queries :=
    if str_in "database" question_lower || str_in "db" question_lower
    then (error_queries ++ [line_match base_selector "(?i)(database|db|sql).*error"])%list
    else error_queries in
  let error_queries :=
    if str_in "connection" question_lower
    then (error_queries
           ++ [line_match base_selector "(?i)connection.*(error|failed|refused|timeout)"])%list
    else error_queries in
  let error_queries :=
    if str_in "timeout" question_lower
    then (error_queries ++ [line_match base_selector "(?i)timeout"])%list
    else error_queries in
  let error_queries :=
    if str_in "authentication" question_lower || str_in "auth" question_lower
    then (error_queries
           ++ [line_match base_selector "(?i)(auth|authentication).*(error|failed|denied)"])%list
    else error_queries in
  error_queries.

Definition http_branch (question_lower base_selector : string) : list string :=
  if str_in "500" question_lower || str_in "server error" question_lower then
    [line_match base_selector "(?i)(status.*5[0-9][0-9]|500|502|503|504)"]
  else if str_in "400" question_lower || str_in "client error" question_lower then
    [line_match base_selector "(?i)(status.*4[0-9][0-9]|400|401|403|404)"]
  else
    [ base_selector ++ " | json | status_code >= 400";
      line_match base_selector "(?i)(GET|POST|PUT|DELETE|PATCH).*HTTP";
      line_match base_selector "status.*[4-5][0-9][0-9]" ].

Definition service_branch (question_lower base_selector namespace_filter : string)
  : list string :=
  match find_service_name service_patterns question_lower with
  | Some service_name =>
      if truthy service_name then
        [ "{service_name=" ++ quoted service_name ++ namespace_filter ++ "}";
          "{app=" ++ quoted service_name ++ namespace_filter ++ "}";
          "{container=" ++ quoted service_name ++ namespace_filter ++ "}" ]
      else [base_selector]
  | None => [base_selector]
  end.

Definition default_queries (base_selector : string) : list string :=
  [ base_selector;
    base_selector ++ " | json | level != " ++ quoted "debug";
    base_selector ++ " | logfmt | level != " ++ quoted "debug" ].

(** The [if / elif / ... / else] chain: the first branch whose keyword
    set meets the question gives the queries. *)
Definition topic_queries (question_lower base_selector namespace_filter
                          rate_interval : string) : list string :=
  if any_in error_words question_lower then
    error_branch question_lower base_selector
  else if any_in warning_words question_lower then
    [ base_selector ++ " | json | level=" ++ quoted "warning";
      base_selector ++ " | logfmt | level=" ++ quoted "warn";
      line_match base_selector "(?i)(warning|warn)" ]
  else if any_in performance_words question_lower then
    [ line_match base_selector "(?i)(slow|latency|timeout|took.*ms|took.*seconds)";
      base_selector ++ " | json | duration > 1000";
      line_match base_selector "response_time|response.*ms" ]
  else if any_in http_words question_lower then
    http_branch question_lower base_selector
  else if any_in auth_words question_lower then
    [ line_match base_selector "(?i)(auth|authentication|login|logout|security)";
      line_match base_selector "(?i)(unauthorized|forbidden|denied|invalid.*token)";
      base_selector ++ " | json | user != " ++ quoted EmptyString ]
  else if any_in database_words question_lower then
    [ line_match base_selector "(?i)(database|db|sql|mysql|postgres|mongodb)";
      line_match base_selector "(?i)(connection.*pool|query.*time|transaction)" ]
  else if any_in lifecycle_words question_lower then
    [ line_match base_selector "(?i)(starting|started|startup|boot|ready|listening)";
      line_match base_selector "(?i)(shutdown|stopping|stopped|graceful)";
      line_match base_selector "(?i)(deploy|deployment|version|build)" ]
  else if any_in service_words question_lower then
    service_branch question_lower base_selector namespace_filter
  else if any_in volume_words question_lower then
    [ "sum by (namespace) (count_over_time(" ++ base_selector ++ "[" ++ rate_interval ++ "]))";
      "sum by (level) (count_over_time(" ++ base_selector ++ "[" ++ rate_interval ++ "]))";
      "sum by (service_name) (count_over_time(" ++ base_selector ++ "[" ++ rate_interval ++ "]))" ]
  else default_queries base_selector.

(** [r'last\s+(\d+)\s*(minute|hour|day)'] *)
Definition time_units : list string := ["minute"; "hour"; "day"].

Definition time_re : Re.regex :=
  Re.Seq (Re.Lit "last")
    (Re.Seq (Re.Plus is_space)
       (Re.Seq (Re.Group 1 (Re.Plus is_digit))
          (Re.Seq (Re.Star is_space) (Re.Group 2 (Re.alts time_units))))).

(** The time phrase of a question: [amount] and [unit] of the match, when
    the question holds "last" and a unit word and the expression matches. *)
Definition time_phrase (question_lower : string) : option (Z * string) :=
  if str_in "last" question_lower && any_in time_units question_lower then
    match Re.search false time_re question_lower with
    | Some time_match =>
        Some (int_of_digits (Re.group 1 time_match), Re.group 2 time_match)
    | None => None
    end
  else None.

Definition interval_of (amount : Z) (unit : string) : string :=
  if String.eqb unit "minute" then str_of_Z amount ++ "m"
  else if String.eqb unit "hour" then str_of_Z amount ++ "h"
  else str_of_Z (amount * 24) ++ "h".

Definition rate_query (base_selector interval : string) : string :=
  "rate(" ++ base_selector ++ "[" ++ interval ++ "])".

(** The queries the time step appends. *)
Definition time_queries (question_lower base_selector : string) : list string :=
  match time_phrase question_lower with
  | Some (amount, unit) => [rate_query base_selector (interval_of amount unit)]
  | None => []
  end.

(** [list(dict.fromkeys(l))]: the first occurrence of each string, in
    order. *)
Definition insert_key (d : list string) (q : string) : list string :=
  if existsb (String.eqb q) d then d else (d ++ [q])%list.

Definition fromkeys (l : list string) : list string :=
  fold_left insert_key l [].

(** [list(dict.fromkeys([q for q in queries if q.strip()]))] *)
Definition remove_duplicates_and_empty (queries : list string) : list string :=
  fromkeys (filter (fun q => truthy (strip q)) queries).

Definition generate_logql_from_question
           (question : string) (namespace : option string)
           (start_ts end_ts : Z) (is_fleet_wide : bool) : list string :=
  let question_lower := lower question in
  let rate_interval := select_rate_interval start_ts end_ts in
  let base_selector := base_selector_of namespace is_fleet_wide in
  let namespace_filter := namespace_filter_of namespace is_fleet_wide in
  let queries :=
    topic_queries question_lower base_selector namespace_filter rate_interval in
  let queries := (queries ++ time_queries question_lower base_selector)%list in
  remove_duplicates_and_empty queries.



(** A query that opens with a character that is neither white space nor
    the letter r: every query of the chain does, no rate query does. *)
Definition opens_plainly (q : string) : bool :=
  match q with
  | String c _ => negb (is_space c) && negb (Ascii.eqb c "r"%char)
  | EmptyString => false
  end.

(** ** [build_error_analysis_logql], [build_performance_analysis_logql] *)

(** Truth value of an optional string argument, and its text. *)
Definition given (a : option string) : bool :=
  match a with Some t => truthy t | None => false end.

Definition text_of (a : option string) : string :=
  match a with Some t => t | None => "None" end.

(** The base selector both builders compute. *)
Definition analysis_selector (namespace service_name : option string) : string :=
  if given namespace && given service_name then
    "{namespace=" ++ quoted (text_of namespace) ++ ", service_name="
      ++ quoted (text_of service_name) ++ "}"
  else if given namespace then
    "{namespace=" ++ quoted (text_of namespace) ++ "}"
  else if given service_name then
    "{service_name=" ++ quoted (text_of service_name) ++ "}"
  else "{job=" ++ quoted "application" ++ "}".

Definition build_error_analysis_logql
           (namespace service_name : option string) (time_range : string)
  : list string :=
  let base_selector := analysis_selector namespace service_name in
  [ base_selector ++ " | json | level=" ++ quoted "error";
    base_selector ++ " | logfmt | level=" ++ quoted "error";
    line_match base_selector
               "(?i)(error|failed|failure|exception|panic|fatal|critical)";
    base_selector ++ " | json | status_code >= 400";
    line_match base_selector "status.*[4-5][0-9][0-9]";
    "sum by (level) (rate(" ++ base_selector ++ " | json | level="
      ++ quoted "error" ++ " [" ++ time_range ++ "]))";
    "sum by (service_name) (count_over_time(" ++ base_selector
      ++ " | json | level=" ++ quoted "error" ++ " [" ++ time_range ++ "]))" ].

Definition build_performance_analysis_logql
           (namespace service_name : option string) (time_range : string)
  : list string :=
  let base_selector := analysis_selector namespace service_name in
  [ line_match base_selector "(?i)(slow|latency|timeout|took.*ms|response.*time)";
    base_selector ++ " | json | duration > 1000";
    base_selector ++ " | json | response_time > 1000";
    "sum by (service_name) (rate(" ++ base_selector ++ " | json | method != "
      ++ quoted EmptyString ++ " [" ++ time_range ++ "]))";
    "avg by (service_name) (rate(" ++ base_selector
      ++ " | json | unwrap duration [" ++ time_range ++ "]))";
    "quantile(0.95, sum by (service_name) (rate(" ++ base_selector
      ++ " | json | unwrap duration [" ++ time_range ++ "])))" ].

End LogqlService.

(* ================================================================== *)
(** * Properties *)
(* ================================================================== *)

(** ** Strings *)

Lemma startswith_app (p s : string) : startswith p (p ++ s) = true.
Proof.
  induction p as [|a p IH]; simpl.
  - reflexivity.
  - now rewrite Ascii.eqb_refl.
Qed.

Lemma str_in_app (p a b : string) : str_in p (a ++ p ++ b) = true.
Proof.
  induction a as [|c a IH].
  - simpl. destruct (p ++ b) eqn:E.
    + simpl. rewrite <- E, startswith_app. reflexivity.
    + simpl. rewrite <- E, startswith_app. reflexivity.
  - simpl. rewrite IH. apply orb_true_r.
Qed.

Lemma str_in_suffix (p a : string) : str_in p (a ++ p) = true.
Proof.
  pose proof (str_in_app p a EmptyString) as H.
  assert (E : p ++ EmptyString = p).
  { clear H. induction p; simpl; congruence. }
  now rewrite E in H.
Qed.

(** ** Error classifier *)

(** C7.  [classify_error] follows the order of the pattern table: a message
    whose lower-cased text contains both "connection refused" and "timeout"
    is classified CONNECTION_REFUSED, not TIMEOUT. *)
Theorem classify_error_connection_refused_first (error_message : string) :
  str_in "connection refused" (lower error_message) = true ->
  str_in "timeout" (lower error_message) = true ->
  classify_error error_message = CONNECTION_REFUSED
  /\ classify_error error_message <> TIMEOUT.
Proof.
  intros Hc _. unfold classify_error.
  cbn [ERROR_PATTERNS classify_loop any_in existsb].
  rewrite Hc. cbn. split; [reflexivity | discriminate].
Qed.

Lemma classify_error_connection_refused_first_witness :
  classify_error "Connection refused by peer after a TIMEOUT of 30s"
    = CONNECTION_REFUSED
  /\ classify_error "Connection refused by peer after a TIMEOUT of 30s"
    <> TIMEOUT.
Proof.
  apply classify_error_connection_refused_first; reflexivity.
Defined.

(** C3 as stated fails: the QUERY_SYNTAX_ERROR sentence is fixed and does
    not name the endpoint. *)
Lemma query_syntax_message_omits_url :
  str_in "http://loki:3100"
         (get_user_friendly_message QUERY_SYNTAX_ERROR "http://loki:3100")
  = false.
Proof. vm_compute. reflexivity. Qed.

(** C3, amended.  For every category other than QUERY_SYNTAX_ERROR the
    user-facing message contains the endpoint [loki_url]; the
    QUERY_SYNTAX_ERROR message is one fixed sentence, the same for every
    endpoint. *)
Theorem user_friendly_message_names_endpoint
        (error_type : LokiErrorType) (loki_url : string) :
  error_type <> QUERY_SYNTAX_ERROR ->
  str_in loki_url (get_user_friendly_message error_type loki_url) = true
  /\ get_user_friendly_message QUERY_SYNTAX_ERROR loki_url
     = "LogQL query syntax error. Check your query syntax and try again.".
Proof.
  intros H. split; [|reflexivity].
  destruct error_type; try congruence;
    unfold get_user_friendly_message, messages; cbn [messages_get LokiErrorType_eqb];
    first [ apply str_in_app | apply str_in_suffix ].
Qed.

Lemma user_friendly_message_names_endpoint_witness :
  str_in "http://loki:3100"
         (get_user_friendly_message TIMEOUT "http://loki:3100") = true
  /\ get_user_friendly_message QUERY_SYNTAX_ERROR "http://loki:3100"
     = "LogQL query syntax error. Check your query syntax and try again.".
Proof.
  apply (user_friendly_message_names_endpoint TIMEOUT "http://loki:3100").
  discriminate.
Defined.

(** ** Response envelope *)



(** ** Query execution *)




(** ** Log pattern detector *)

(** C4 as stated fails: an entry whose level is the known level "info" and
    whose message holds the word "failed" is detected, and counted, as an
    error. *)
Lemma info_entry_with_failed_counts_as_error :
  is_error_log
    (mk_log_entry 1 "request failed" [] None
                  (Some (JStr "info")) (Some (JStr "request failed")))
  = Some true
  /\ McpTools.count_levels
       [mk_log_entry 1 "request failed" [] None
                     (Some (JStr "info")) (Some (JStr "request failed"))] 0 0
     = Some (1, 0)%nat.
Proof. split; reflexivity. Qed.

(** C4, amended.  For an entry whose level and message are strings, the
    detectors look at the level first and at the message keywords whenever
    the level is not one of theirs, whether the level is known or not:
    [is_error_log] holds when the lower-cased level is error, fatal or
    critical, or else when the lower-cased message contains an error
    keyword; [is_warning_log] holds when the lower-cased level is warning
    or warn, or else when the lower-cased message contains a warning
    keyword. *)
Theorem detectors_level_then_keywords
        (e : log_entry) (lvl msg : string)
        (Hlevel : level e = Some (JStr lvl))
        (Hmessage : get_message e = JStr msg) :
  is_error_log e
  = Some (mem (lower lvl) error_levels || any_in error_patterns (lower msg))
  /\ is_warning_log e
     = Some (mem (lower lvl) warning_levels || any_in warning_patterns (lower msg)).
Proof.
  unfold is_error_log, is_warning_log, get_level.
  rewrite Hlevel, Hmessage. cbn [str_lower].
  split.
  - destruct (mem (lower lvl) error_levels); reflexivity.
  - destruct (mem (lower lvl) warning_levels); reflexivity.
Qed.

Lemma detectors_level_then_keywords_witness :
  is_error_log
    (mk_log_entry 1 "request failed" [] None
                  (Some (JStr "info")) (Some (JStr "request failed")))
  = Some (mem (lower "info") error_levels
          || any_in error_patterns (lower "request failed"))
  /\ is_warning_log
       (mk_log_entry 1 "request failed" [] None
                     (Some (JStr "info")) (Some (JStr "request failed")))
     = Some (mem (lower "info") warning_levels
             || any_in warning_patterns (lower "request failed")).
Proof.
  apply (detectors_level_then_keywords
           (mk_log_entry 1 "request failed" [] None
                         (Some (JStr "info")) (Some (JStr "request failed")))
           "info" "request failed"); reflexivity.
Defined.

(** ** Log entry parser *)

(** C1 fails on the code: a line that is not wrapped in braces never
    reaches the plain-text handling, which sits in the [except] branch; its
    entry has neither a "message" nor a "level" key.  The level the
    plain-text handling would give "2024 ERROR something failed" is
    "error". *)
Theorem unbraced_line_gets_no_level_nor_message
        (stream_labels : labels) (v0 log_line : string) (ts : Z)
        (Hts : py_int v0 = Some ts)
        (Hplain : QueryTool.looks_like_object log_line = false) :
  QueryTool.parse_value stream_labels [v0; log_line]
  = inr (Some (mk_log_entry ts log_line stream_labels None None None))
  /\ QueryTool.plain_text_level "2024 ERROR something failed" = "error".
Proof.
  split; [| reflexivity].
  unfold QueryTool.parse_value, QueryTool.parse_structured.
  rewrite Hts, Hplain. reflexivity.
Qed.

Lemma unbraced_line_gets_no_level_nor_message_witness :
  QueryTool.parse_value [("app", "api")]
                        ["1700000000000000000"; "2024 ERROR something failed"]
  = inr (Some (mk_log_entry 1700000000000000000
                            "2024 ERROR something failed" [("app", "api")]
                            None None None))
  /\ QueryTool.plain_text_level "2024 ERROR something failed" = "error".
Proof.
  apply (unbraced_line_gets_no_level_nor_message
           [("app", "api")] "1700000000000000000"
           "2024 ERROR something failed" 1700000000000000000);
    reflexivity.
Defined.

(** C5 as stated fails: a FATAL found by the expression in the raw text
    gives the level "fatal", and a structured level "CRITICAL" is kept as
    it is; neither becomes "error". *)
Lemma fatal_and_critical_are_not_normalized :
  QueryTool.parse_value [] ["1"; "{FATAL disk full}"]
  = inr (Some (mk_log_entry 1 "{FATAL disk full}" [] None
                            (Some (JStr "fatal"))
                            (Some (JStr "{FATAL disk full}"))))
  /\ QueryTool.parse_value []
       ["1"; "{" ++ dq ++ "level" ++ dq ++ ":" ++ dq ++ "CRITICAL" ++ dq ++ "}"]
     = inr (Some (mk_log_entry 1
                    ("{" ++ dq ++ "level" ++ dq ++ ":" ++ dq ++ "CRITICAL" ++ dq ++ "}")
                    []
                    (Some (JObj [("level", JStr "CRITICAL")]))
                    (Some (JStr "CRITICAL"))
                    (Some (JStr ("{" ++ dq ++ "level" ++ dq ++ ":" ++ dq
                                     ++ "CRITICAL" ++ dq ++ "}"))))).
Proof. split; vm_compute; reflexivity. Qed.

(** A line wrapped in braces decodes to an object or does not decode: the
    [.get] calls of the structured branch never meet another value. *)

Lemma scan_members_object (scan : string -> option (json * string)) (fuel : nat) :
  forall (s : string) (acc : list (string * json)) (v : json) (rest : string),
    scan_members scan fuel s acc = Some (v, rest) -> exists d, v = JObj d.
Proof.
  induction fuel as [|fuel IH]; intros s acc v rest H; simpl in H; [discriminate |].
  repeat match type of H with
         | context [match ?x with _ => _ end] => destruct x eqn:?; try discriminate
         end.
  - inversion H. eauto.
  - eapply IH. eassumption.
Qed.

Lemma scan_value_brace (fuel : nat) (r : string) (v : json) (rest : string) :
  scan_value fuel (String "{"%char r) = Some (v, rest) -> exists d, v = JObj d.
Proof.
  destruct fuel as [|fuel]; [discriminate |].
  cbn [scan_value].
  change (Ascii.eqb "{"%char dquote) with false.
  change (Ascii.eqb "{"%char "{"%char) with true. cbv iota.
  destruct (skip_ws r) as [|c r']; [discriminate |].
  destruct (Ascii.eqb c "}"%char).
  - intros H. inversion H. eauto.
  - apply scan_members_object.
Qed.

Lemma ws_is_space (a : ascii) : is_ws a = true -> is_space a = true.
Proof.
  destruct a as [[] [] [] [] [] [] [] []]; intros H; vm_compute in H;
    try discriminate H; reflexivity.
Qed.

Lemma scan_value_at_other_space (fuel : nat) (a : ascii) (r : string) :
  is_space a = true -> is_ws a = false -> scan_value fuel (String a r) = None.
Proof.
  destruct fuel as [|fuel]; [reflexivity |].
  destruct a as [[] [] [] [] [] [] [] []]; intros H1 H2;
    vm_compute in H1; try discriminate H1;
    vm_compute in H2; try discriminate H2; reflexivity.
Qed.

Lemma rstrip_head (a : ascii) (r : string) :
  is_space a = false -> exists r', rstrip (String a r) = String a r'.
Proof.
  intros H. simpl. destruct (rstrip r); [rewrite H |]; eauto.
Qed.

Lemma braced_skip_ws (s : string) :
  starts_with_char "{"%char (strip s) = true ->
  (exists r, skip_ws s = String "{"%char r)
  \/ (exists a r, skip_ws s = String a r /\ is_space a = true /\ is_ws a = false).
Proof.
  induction s as [|a s IH]; intros H; [discriminate |].
  simpl skip_ws. destruct (is_ws a) eqn:Hws.
  - apply IH. unfold strip in *. simpl lstrip in H.
    now rewrite (ws_is_space a Hws) in H.
  - destruct (is_space a) eqn:Hsp.
    + right. now exists a, s.
    + left. unfold strip in H. simpl lstrip in H. rewrite Hsp in H.
      destruct (rstrip_head a s Hsp) as [r' E]. rewrite E in H.
      unfold starts_with_char in H. simpl in H.
      apply Ascii.eqb_eq in H. subst. now exists s.
Qed.

Lemma loads_braced_is_object (log_line : string) (v : json) :
  QueryTool.looks_like_object log_line = true ->
  loads log_line = Some v -> exists d, v = JObj d.
Proof.
  unfold QueryTool.looks_like_object, loads. intros H.
  apply andb_true_iff in H. destruct H as [H _].
  destruct (braced_skip_ws log_line H) as [[r E] | (a & r & E & Hsp & Hws)];
    rewrite E.
  - destruct (scan_value _ _) as [[v' rest]|] eqn:Es; [| discriminate].
    apply scan_value_brace in Es. destruct Es as [d ->].
    destruct (skip_ws rest); [| discriminate].
    intros Hv. inversion Hv. eauto.
  - now rewrite (scan_value_at_other_space _ a r Hsp Hws).
Qed.

(** C5, amended.  The parser does not normalize levels.  For a line
    wrapped in braces that decodes (to an object), the level of the entry
    is the value of the "level" member as it stands ("unknown" when there
    is none); for a line wrapped in braces that does not decode, the level
    is the lower-cased text the expression matched, so "fatal" for FATAL
    and "critical" for CRITICAL ("unknown" when nothing matches).  It is
    the pattern detector that takes the levels fatal and critical, like
    error, for errors. *)
Theorem parser_keeps_fatal_and_critical
        (entry : log_entry) (log_line : string)
        (Hobj : QueryTool.looks_like_object log_line = true) :
  (exists e',
      QueryTool.parse_structured log_line entry = inr e'
      /\ ((exists d, loads log_line = Some (JObj d)
                     /\ level e' = Some (get "level" d (JStr "unknown")))
          \/ (loads log_line = None
              /\ message e' = Some (JStr log_line)
              /\ level e'
                 = Some (JStr match QueryTool.level_match log_line with
                              | Some m => lower (Re.group 1 m)
                              | None => "unknown"
                              end))))
  /\ (forall (e : log_entry) (lvl : string),
         level e = Some (JStr lvl) ->
         mem (lower lvl) ["fatal"; "critical"] = true ->
         is_error_log e = Some true).
Proof.
  split.
  - unfold QueryTool.parse_structured. rewrite Hobj.
    destruct (loads log_line) as [v|] eqn:E.
    + destruct (loads_braced_is_object log_line v Hobj E) as [d ->].
      eexists. split; [reflexivity |]. left. exists d. now split.
    + eexists. split; [reflexivity |]. right. repeat split.
  - intros e lvl Hl Hm. unfold is_error_log, get_level. rewrite Hl. cbn [str_lower].
    assert (Hin : mem (lower lvl) error_levels = true).
    { unfold mem, error_levels in *. cbn [existsb] in *.
      apply orb_true_iff in Hm. destruct Hm as [Hm | Hm].
      - rewrite Hm. now rewrite !orb_true_r.
      - rewrite orb_false_r in Hm. rewrite Hm. now rewrite !orb_true_r. }
    now rewrite Hin.
Qed.

Lemma parser_keeps_fatal_and_critical_witness :
  exists e',
    QueryTool.parse_structured "{FATAL disk full}"
      (mk_log_entry 1 "{FATAL disk full}" [] None None None) = inr e'
    /\ ((exists d, loads "{FATAL disk full}" = Some (JObj d)
                   /\ level e' = Some (get "level" d (JStr "unknown")))
        \/ (loads "{FATAL disk full}" = None
            /\ message e' = Some (JStr "{FATAL disk full}")
            /\ level e' = Some (JStr "fatal"))).
Proof.
  exact (proj1 (parser_keeps_fatal_and_critical
                  (mk_log_entry 1 "{FATAL disk full}" [] None None None)
                  "{FATAL disk full}" eq_refl)).
Defined.

(** ** Query planner *)

Section Planner.

Import LogqlService.

Lemma app_length_str (a b : string) :
  String.length (a ++ b) = (String.length a + String.length b)%nat.
Proof. induction a as [|c a IH]; simpl; [reflexivity | now rewrite IH]. Qed.

Lemma app_assoc_str (a b c : string) : (a ++ b) ++ c = a ++ (b ++ c).
Proof. induction a as [|x a IH]; simpl; [reflexivity | now rewrite IH]. Qed.

Lemma app_inv_head_str (a b c : string) : a ++ b = a ++ c -> b = c.
Proof.
  induction a as [|x a IH]; simpl; intros H; [exact H |].
  injection H as H. now apply IH.
Qed.


(** *** [dict.fromkeys] *)

Lemma fromkeys_fold (l : list string) : fromkeys l = fold_left insert_key l [].
Proof. reflexivity. Qed.

Lemma existsb_eqb_false (q : string) (d : list string) :
  ~ In q d -> existsb (String.eqb q) d = false.
Proof.
  intros H. destruct (existsb (String.eqb q) d) eqn:E; [| reflexivity].
  apply existsb_exists in E. destruct E as [y [Hy Hq]].
  apply String.eqb_eq in Hq. subst. contradiction.
Qed.

Lemma insert_key_fresh (d : list string) (q : string) :
  ~ In q d -> insert_key d q = (d ++ [q])%list.
Proof. intros H. unfold insert_key. now rewrite existsb_eqb_false. Qed.



Lemma fold_insert_key_in (l d : list string) (y : string) :
  In y (fold_left insert_key l d) -> In y d \/ In y l.
Proof.
  revert d. induction l as [|q l IH]; intros d H; simpl in *.
  - now left.
  - apply IH in H. destruct H as [H | H]; [| right; now right].
    unfold insert_key in H. destruct (existsb (String.eqb q) d).
    + now left.
    + apply in_app_or in H. destruct H as [H | [H | []]].
      * now left.
      * right. now left.
Qed.


(** *** Queries that open with a brace or a letter *)

Lemma strip_head_not_space (a : ascii) (r : string) :
  is_space a = false -> truthy (strip (String a r)) = true.
Proof.
  intros H. unfold strip. simpl. rewrite H. simpl.
  destruct (rstrip r); [rewrite H |]; reflexivity.
Qed.

Lemma base_selector_head (namespace : option string) (is_fleet_wide : bool) :
  exists t, base_selector_of namespace is_fleet_wide = String "{"%char t.
Proof.
  unfold base_selector_of.
  destruct (is_fleet_wide || no_namespace namespace); eexists; reflexivity.
Qed.

Lemma rate_query_head (base_selector interval : string) :
  exists t, rate_query base_selector interval = String "r"%char t.
Proof. eexists. reflexivity. Qed.


Lemma topic_queries_open_plainly (question_lower t namespace_filter rate_interval : string) :
  forallb opens_plainly
          (topic_queries question_lower (String "{"%char t) namespace_filter
                         rate_interval) = true.
Proof.
  unfold topic_queries, error_branch, http_branch, service_branch,
    default_queries, line_match.
  repeat match goal with
         | |- context [if ?c then _ else _] => destruct c
         | |- context [match ?c with Some _ => _ | None => _ end] => destruct c
         end; reflexivity.
Qed.

Lemma filter_all {A : Type} (f : A -> bool) (l : list A) :
  forallb f l = true -> filter f l = l.
Proof.
  induction l as [|x l IH]; simpl; [reflexivity |].
  intros H. apply andb_true_iff in H. destruct H as [Hx Hl].
  rewrite Hx. now rewrite IH.
Qed.

Lemma opens_plainly_truthy (q : string) :
  opens_plainly q = true -> truthy (strip q) = true.
Proof.
  destruct q as [|c q]; simpl; [discriminate |].
  intros H. apply andb_true_iff in H. destruct H as [H _].
  apply strip_head_not_space. now destruct (is_space c).
Qed.

Lemma forallb_impl {A : Type} (f g : A -> bool) (l : list A) :
  (forall x, f x = true -> g x = true) ->
  forallb f l = true -> forallb g l = true.
Proof.
  intros Hfg. induction l as [|x l IH]; simpl; [reflexivity |].
  intros H. apply andb_true_iff in H. destruct H as [Hx Hl].
  now rewrite (Hfg _ Hx), IH.
Qed.



(** *** What a successful search tells *)

Lemma substring_prefix (w t : string) :
  substring 0 (String.length (w ++ t) - String.length t) (w ++ t) = w.
Proof.
  rewrite app_length_str.
  replace (String.length w + String.length t - String.length t)%nat
    with (String.length w) by lia.
  induction w as [|a w IH]; simpl.
  - destruct t; reflexivity.
  - now rewrite IH.
Qed.


Lemma many_inv {A : Type} (cls : ascii -> bool)
      (k : option ascii -> string -> option A)
      (prev : option ascii) (s : string) (x : A) :
  Re.many cls k prev s = Some x ->
  exists w pr t, s = w ++ t /\ all_chars cls w = true /\ k pr t = Some x.
Proof.
  revert prev. induction s as [|a s IH]; intros prev H; simpl in H.
  - exists EmptyString, prev, EmptyString. auto.
  - destruct (cls a) eqn:Ha.
    + destruct (Re.many cls k (Some a) s) eqn:E.
      * inversion H; subst. apply IH in E.
        destruct E as (w & pr & t & -> & Hw & Hk).
        exists (String a w), pr, t. simpl. rewrite Ha, Hw. auto.
      * exists EmptyString, prev, (String a s). auto.
    + exists EmptyString, prev, (String a s). auto.
Qed.


Lemma run_Plus_inv {A : Type} (ic : bool) (cls : ascii -> bool)
      (k : option ascii -> string -> Re.captures -> option A)
      (prev : option ascii) (s : string) (c : Re.captures) (x : A) :
  Re.run ic (Re.Plus cls) k prev s c = Some x ->
  exists w pr t, s = w ++ t /\ w <> EmptyString /\ all_chars cls w = true
                 /\ k pr t c = Some x.
Proof.
  simpl. destruct s as [|a s]; [discriminate |].
  destruct (cls a) eqn:Ha; [| discriminate].
  intros H. apply many_inv in H. destruct H as (w & pr & t & -> & Hw & Hk).
  exists (String a w), pr, t. simpl. rewrite Ha, Hw.
  repeat split; auto. discriminate.
Qed.

Lemma run_Star_inv {A : Type} (ic : bool) (cls : ascii -> bool)
      (k : option ascii -> string -> Re.captures -> option A)
      (prev : option ascii) (s : string) (c : Re.captures) (x : A) :
  Re.run ic (Re.Star cls) k prev s c = Some x ->
  exists w pr t, s = w ++ t /\ all_chars cls w = true /\ k pr t c = Some x.
Proof. simpl. apply many_inv. Qed.


Lemma search_from_inv (ic : bool) (r : Re.regex) (prev : option ascii)
      (s : string) (m : Re.captures) :
  Re.search_from ic r prev s = Some m ->
  exists pre pr t, s = pre ++ t
                   /\ Re.run ic r (fun _ _ c => Some c) pr t [] = Some m.
Proof.
  revert prev. induction s as [|a s IH]; intros prev H; simpl in H.
  - destruct (Re.run ic r _ prev EmptyString []) eqn:E; [| discriminate].
    inversion H; subst. now exists EmptyString, prev, EmptyString.
  - destruct (Re.run ic r _ prev (String a s) []) eqn:E.
    + inversion H; subst. now exists EmptyString, prev, (String a s).
    + apply IH in H. destruct H as (pre & pr & t & -> & Hr).
      now exists (String a pre), pr, t.
Qed.



(** *** [int] on captured digits *)















End Planner.

(** ** Time conversion *)



(** ** Further properties of the error classifier *)

Lemma startswith_inv (p s : string) :
  startswith p s = true -> exists y, s = p ++ y.
Proof.
  revert s. induction p as [|a p IH]; intros s H.
  - now exists s.
  - destruct s as [|b s]; [discriminate |]. simpl in H.
    apply andb_true_iff in H. destruct H as [Hab H].
    apply Ascii.eqb_eq in Hab. subst. destruct (IH s H) as [y ->].
    now exists y.
Qed.

Lemma str_in_inv (p s : string) :
  str_in p s = true -> exists x y, s = x ++ p ++ y.
Proof.
  induction s as [|a s IH]; intros H.
  - simpl in H. rewrite orb_false_r in H.
    destruct (startswith_inv _ _ H) as [y Hy]. now exists EmptyString, y.
  - simpl in H. apply orb_true_iff in H. destruct H as [H | H].
    + destruct (startswith_inv _ _ H) as [y Hy]. now exists EmptyString, y.
    + destruct (IH H) as (x & y & ->). now exists (String a x), y.
Qed.

(** A text that contains [a ++ b] contains [b]. *)
Lemma str_in_tail (a b s : string) :
  str_in (a ++ b) s = true -> str_in b s = true.
Proof.
  intros H. destruct (str_in_inv _ _ H) as (x & y & ->).
  replace (x ++ (a ++ b) ++ y) with ((x ++ a) ++ b ++ y)
    by (rewrite !app_assoc_str; reflexivity).
  apply str_in_app.
Qed.

Lemma any_in_false (words : list string) (s : string) :
  any_in words s = false <-> forall w, In w words -> str_in w s = false.
Proof.
  unfold any_in. induction words as [|w words IH]; simpl.
  - split; [intros _ w [] | reflexivity].
  - rewrite orb_false_iff, IH. split.
    + intros [Hw Hr] w' [<- | Hin]; auto.
    + intros H. split; [apply H; now left | intros w' Hin; apply H; now right].
Qed.

Lemma classify_loop_unknown (items : list (LokiErrorType * list string)) (s : string) :
  (forall pats, ~ In (UNKNOWN, pats) items) ->
  (classify_loop items s = UNKNOWN
   <-> forall t pats, In (t, pats) items -> any_in pats s = false).
Proof.
  induction items as [|[t pats] items IH]; intros Hk; simpl.
  - split; [intros _ t pats [] | reflexivity].
  - assert (Hk' : forall pats, ~ In (UNKNOWN, pats) items).
    { intros q Hq. apply (Hk q). now right. }
    destruct (any_in pats s) eqn:E.
    + split.
      * intros ->. exfalso. apply (Hk pats). now left.
      * intros H. rewrite (H t pats) in E; [discriminate | now left].
    + rewrite (IH Hk'). split.
      * intros H t' pats' [Heq | Hin]; [now inversion Heq; subst | eauto].
      * intros H t' pats' Hin. apply (H t' pats'). now right.
Qed.

Lemma classify_loop_sound (items : list (LokiErrorType * list string)) (s : string) :
  classify_loop items s <> UNKNOWN ->
  exists pats, In (classify_loop items s, pats) items /\ any_in pats s = true.
Proof.
  induction items as [|[t pats] items IH]; simpl; intros H; [congruence |].
  destruct (any_in pats s) eqn:E.
  - exists pats. split; [now left | exact E].
  - destruct (IH H) as (q & Hin & Hq). exists q. split; [now right | exact Hq].
Qed.

(** X1.  [classify_error] gives UNKNOWN exactly for the messages whose
    lower-cased text contains no phrase of the table; and when it gives
    another category, a phrase of that very category occurs in the
    lower-cased message. *)
Theorem classify_error_unknown_iff_no_phrase (error_message : string) :
  (classify_error error_message = UNKNOWN
   <-> forall t pats p, In (t, pats) ERROR_PATTERNS -> In p pats ->
                        str_in p (lower error_message) = false)
  /\ (classify_error error_message <> UNKNOWN ->
      exists pats p, In (classify_error error_message, pats) ERROR_PATTERNS
                     /\ In p pats /\ str_in p (lower error_message) = true).
Proof.
  unfold classify_error. split.
  - rewrite classify_loop_unknown.
    + split.
      * intros H t pats p Hin Hp. specialize (H t pats Hin).
        rewrite any_in_false in H. now apply H.
      * intros H t pats Hin. apply any_in_false. intros p Hp. eapply H; eauto.
    + intros pats Hin. cbn in Hin.
      repeat match goal with
             | H : _ \/ _ |- _ => destruct H as [H | H]; [discriminate H |]
             end. exact Hin.
  - intros H. destruct (classify_loop_sound _ _ H) as (pats & Hin & Hany).
    unfold any_in in Hany. apply existsb_exists in Hany.
    destruct Hany as (p & Hp & Hs). now exists pats, p.
Qed.

Lemma classify_error_unknown_iff_no_phrase_witness :
  exists pats p,
    In (classify_error "HTTP 503 from gateway", pats) ERROR_PATTERNS
    /\ In p pats /\ str_in p (lower "HTTP 503 from gateway") = true.
Proof.
  apply (proj2 (classify_error_unknown_iff_no_phrase "HTTP 503 from gateway")).
  vm_compute. discriminate.
Defined.

(** X2.  The phrase "gateway timeout" of SERVICE_UNAVAILABLE is shadowed:
    a message that contains it contains "timeout", which the table tests
    first, so such a message is never classified SERVICE_UNAVAILABLE; it is
    classified TIMEOUT or one of the three categories before it. *)
Theorem gateway_timeout_is_never_service_unavailable (error_message : string) :
  str_in "gateway timeout" (lower error_message) = true ->
  classify_error error_message <> SERVICE_UNAVAILABLE
  /\ In (classify_error error_message)
        [CONNECTION_REFUSED; DNS_RESOLUTION_FAILED; HTTP_ERROR; TIMEOUT].
Proof.
  intros H.
  assert (Ht : str_in "timeout" (lower error_message) = true)
    by exact (str_in_tail "gateway " "timeout" _ H).
  assert (Hin : In (classify_error error_message)
                   [CONNECTION_REFUSED; DNS_RESOLUTION_FAILED; HTTP_ERROR; TIMEOUT]).
  { unfold classify_error. cbn [ERROR_PATTERNS classify_loop].
    destruct (any_in _ (lower error_message)); [now left |].
    destruct (any_in _ (lower error_message)); [right; now left |].
    destruct (any_in _ (lower error_message)); [right; right; now left |].
    cbn [any_in existsb]. rewrite Ht. cbn. right; right; right; now left. }
  split; [| exact Hin].
  intros E. rewrite E in Hin. cbn in Hin.
  repeat destruct Hin as [Hin | Hin]; try discriminate Hin. exact Hin.
Qed.

Lemma gateway_timeout_is_never_service_unavailable_witness :
  classify_error "504 Gateway Timeout" <> SERVICE_UNAVAILABLE
  /\ In (classify_error "504 Gateway Timeout")
        [CONNECTION_REFUSED; DNS_RESOLUTION_FAILED; HTTP_ERROR; TIMEOUT].
Proof.
  apply (gateway_timeout_is_never_service_unavailable "504 Gateway Timeout").
  reflexivity.
Defined.

(** X3.  The user-friendly messages of two different categories differ,
    whatever the endpoint: the category can be read back from the
    message. *)
Theorem user_friendly_message_determines_category
        (t1 t2 : LokiErrorType) (loki_url : string) :
  t1 <> t2 ->
  get_user_friendly_message t1 loki_url <> get_user_friendly_message t2 loki_url.
Proof.
  destruct t1, t2; intros Hne; try congruence; cbn; intros H; discriminate H.
Qed.

Lemma user_friendly_message_determines_category_witness :
  get_user_friendly_message TIMEOUT "http://loki:3100"
  <> get_user_friendly_message SERVICE_UNAVAILABLE "http://loki:3100".
Proof.
  apply (user_friendly_message_determines_category
           TIMEOUT SERVICE_UNAVAILABLE "http://loki:3100").
  discriminate.
Defined.

(** ** Further properties of the log pattern detector *)

Lemma error_type_loop_unknown (items : list (string * list string)) (s : string) :
  (forall kws, ~ In ("unknown", kws) items) ->
  (error_type_loop items s = "unknown"
   <-> forall t kws, In (t, kws) items -> any_in kws s = false).
Proof.
  induction items as [|[t kws] items IH]; intros Hk; simpl.
  - split; [intros _ t kws [] | reflexivity].
  - assert (Hk' : forall kws, ~ In ("unknown", kws) items).
    { intros q Hq. apply (Hk q). now right. }
    destruct (any_in kws s) eqn:E.
    + split.
      * intros ->. exfalso. apply (Hk kws). now left.
      * intros H. rewrite (H t kws) in E; [discriminate | now left].
    + rewrite (IH Hk'). split.
      * intros H t' kws' [Heq | Hin]; [now inversion Heq; subst | eauto].
      * intros H t' kws' Hin. apply (H t' kws'). now right.
Qed.

Lemma error_type_loop_range (items : list (string * list string)) (s : string) :
  In (error_type_loop items s) (map fst items ++ ["unknown"])%list.
Proof.
  induction items as [|[t kws] items IH]; simpl.
  - now left.
  - destruct (any_in kws s); [now left | now right].
Qed.

(** X4.  For an entry whose message is a string, [extract_error_type]
    returns one of the eight category names or "unknown", and it returns
    "unknown" exactly when the lower-cased message contains no keyword of
    any category. *)
Theorem extract_error_type_unknown_iff_no_keyword
        (e : log_entry) (msg : string)
        (Hmessage : get_message e = JStr msg) :
  exists t,
    extract_error_type e = Some t
    /\ In t ["database"; "connection"; "timeout"; "authentication"; "http";
             "memory"; "disk"; "permission"; "unknown"]
    /\ (t = "unknown"
        <-> forall category keywords k,
              In (category, keywords) error_types -> In k keywords ->
              str_in k (lower msg) = false).
Proof.
  unfold extract_error_type. rewrite Hmessage. cbn [str_lower].
  eexists. split; [reflexivity |]. split.
  - exact (error_type_loop_range error_types (lower msg)).
  - rewrite error_type_loop_unknown.
    + split.
      * intros H c kws k Hin Hk. specialize (H c kws Hin).
        rewrite any_in_false in H. now apply H.
      * intros H c kws Hin. apply any_in_false. intros k Hk. eapply H; eauto.
    + intros kws Hin. cbn in Hin.
      repeat match goal with
             | H : _ \/ _ |- _ => destruct H as [H | H]; [discriminate H |]
             end. exact Hin.
Qed.

Lemma extract_error_type_unknown_iff_no_keyword_witness :
  exists t,
    extract_error_type
      (mk_log_entry 1 "kernel panic" [] None None None) = Some t
    /\ In t ["database"; "connection"; "timeout"; "authentication"; "http";
             "memory"; "disk"; "permission"; "unknown"]
    /\ (t = "unknown"
        <-> forall category keywords k,
              In (category, keywords) error_types -> In k keywords ->
              str_in k (lower "kernel panic") = false).
Proof.
  exact (extract_error_type_unknown_iff_no_keyword
           (mk_log_entry 1 "kernel panic" [] None None None)
           "kernel panic" eq_refl).
Defined.

(** X5.  The severity counting of the tool loops counts every entry at
    most once: the two counters never decrease and together grow by at most
    the number of entries. *)
Theorem count_levels_bounded
        (logs : list log_entry) (error_count warning_count e w : nat) :
  McpTools.count_levels logs error_count warning_count = Some (e, w) ->
  (error_count <= e /\ warning_count <= w
   /\ e + w <= error_count + warning_count + List.length logs)%nat.
Proof.
  revert error_count warning_count.
  induction logs as [|x logs IH]; intros ec wc H; simpl in H.
  - inversion H; subst. simpl. lia.
  - destruct (is_error_log x) as [[|]|]; [| | discriminate].
    + apply IH in H. simpl. lia.
    + destruct (is_warning_log x) as [[|]|]; [| | discriminate];
        apply IH in H; simpl; lia.
Qed.

Lemma count_levels_bounded_witness :
  McpTools.count_levels
    [ mk_log_entry 1 "boot ok" [] None (Some (JStr "info")) None;
      mk_log_entry 2 "disk almost full" [] None (Some (JStr "WARN")) None;
      mk_log_entry 3 "request failed" [] None None None ] 0 0
  = Some (1, 1)%nat
  /\ (0 <= 1 /\ 0 <= 1 /\ 1 + 1 <= 0 + 0 + 3)%nat.
Proof.
  split; [reflexivity |].
  apply (count_levels_bounded
           [ mk_log_entry 1 "boot ok" [] None (Some (JStr "info")) None;
             mk_log_entry 2 "disk almost full" [] None (Some (JStr "WARN")) None;
             mk_log_entry 3 "request failed" [] None None None ]
           0 0 1 1).
  reflexivity.
Defined.

Lemma bump_total (key : string) (d : list (string * nat)) :
  McpTools.tally_total (McpTools.bump key d) = S (McpTools.tally_total d).
Proof.
  induction d as [|[k n] d IH]; simpl; [reflexivity |].
  destruct (String.eqb k key); simpl; [reflexivity | rewrite IH; lia].
Qed.

Lemma bump_keys_in (key x : string) (d : list (string * nat)) :
  In x (map fst (McpTools.bump key d)) -> x = key \/ In x (map fst d).
Proof.
  induction d as [|[k n] d IH]; simpl.
  - intros [<- | []]. now left.
  - destruct (String.eqb k key); simpl; intros [<- | H]; auto.
    destruct (IH H); auto.
Qed.

Lemma bump_nodup (key : string) (d : list (string * nat)) :
  NoDup (map fst d) -> NoDup (map fst (McpTools.bump key d)).
Proof.
  induction d as [|[k n] d IH]; simpl; intros H.
  - repeat constructor. intros [].
  - inversion H as [|? ? Hk Hd]; subst.
    destruct (String.eqb_spec k key); simpl.
    + now constructor.
    + constructor; [| now apply IH].
      intros Hin. apply bump_keys_in in Hin. destruct Hin; congruence.
Qed.

Lemma tally_errors_invariant (logs : list log_entry) :
  forall et sv et' sv',
    McpTools.tally_errors logs et sv = Some (et', sv') ->
    NoDup (map fst et) -> NoDup (map fst sv) ->
    McpTools.tally_total et' = (McpTools.tally_total et + List.length logs)%nat
    /\ McpTools.tally_total sv' = (McpTools.tally_total sv + List.length logs)%nat
    /\ NoDup (map fst et') /\ NoDup (map fst sv').
Proof.
  induction logs as [|x logs IH]; intros et sv et' sv' H Het Hsv; simpl in H.
  - inversion H; subst. simpl. repeat split; auto; lia.
  - destruct (extract_error_type x) as [t|]; [| discriminate].
    apply IH in H; [| now apply bump_nodup | now apply bump_nodup].
    rewrite !bump_total in H. simpl. destruct H as (H1 & H2 & H3 & H4).
    repeat split; auto; lia.
Qed.

(** X6.  The tallies of the error analysis add up: when the loop over the
    logs completes, the counters per error type sum to the number of logs,
    so do the counters per service, and no key occurs twice in either. *)
Theorem tally_errors_sums_to_log_count
        (logs : list log_entry)
        (error_types services_with_errors : list (string * nat)) :
  McpTools.tally_errors logs [] [] = Some (error_types, services_with_errors) ->
  McpTools.tally_total error_types = List.length logs
  /\ McpTools.tally_total services_with_errors = List.length logs
  /\ NoDup (map fst error_types)
  /\ NoDup (map fst services_with_errors).
Proof.
  intros H. apply tally_errors_invariant in H; [| constructor | constructor].
  simpl in H. exact H.
Qed.

Lemma tally_errors_sums_to_log_count_witness :
  McpTools.tally_total [("database", 2%nat); ("unknown", 1%nat)] = 3%nat
  /\ McpTools.tally_total [("payments", 2%nat); ("unknown", 1%nat)] = 3%nat
  /\ NoDup (map fst [("database", 2%nat); ("unknown", 1%nat)])
  /\ NoDup (map fst [("payments", 2%nat); ("unknown", 1%nat)]).
Proof.
  apply (tally_errors_sums_to_log_count
           [ mk_log_entry 1 "database down" [("service_name", "payments")]
                          None None None;
             mk_log_entry 2 "kernel panic" [] None None None;
             mk_log_entry 3 "db pool exhausted" [("app", "payments")]
                          None None None ]).
  reflexivity.
Defined.

(** ** Further properties of the log entry parser *)

Lemma parse_structured_ok (log_line : string) (entry : log_entry) :
  exists e',
    QueryTool.parse_structured log_line entry = inr e'
    /\ timestamp_ns e' = timestamp_ns entry
    /\ log e' = log entry
    /\ entry_labels e' = entry_labels entry.
Proof.
  unfold QueryTool.parse_structured.
  destruct (QueryTool.looks_like_object log_line) eqn:Hobj.
  - destruct (loads log_line) as [v|] eqn:E.
    + destruct (loads_braced_is_object log_line v Hobj E) as [d ->].
      eexists. repeat split.
    + eexists. repeat split.
  - exists entry. repeat split.
Qed.

Lemma parse_value_cases (stream_labels : labels) (value : list string) :
  (exists lit, QueryTool.parse_value stream_labels value
               = inl (QueryTool.ValueError_int lit)
               /\ py_int lit = None /\ QueryTool.value_timed value = false)
  \/ (QueryTool.value_timed value = true
      /\ exists r, QueryTool.parse_value stream_labels value = inr r
                   /\ map log (match r with Some e => [e] | None => [] end)
                      = QueryTool.value_line value
                   /\ forall e, r = Some e -> entry_labels e = stream_labels).
Proof.
  destruct value as [|v0 [|log_line rest]].
  - right. split; [reflexivity |]. exists None. repeat split; discriminate.
  - right. split; [reflexivity |]. exists None. repeat split; discriminate.
  - unfold QueryTool.parse_value, QueryTool.value_timed.
    destruct (py_int v0) as [ts|] eqn:E.
    + right. split; [reflexivity |].
      destruct (parse_structured_ok log_line
                  (mk_log_entry ts log_line stream_labels None None None))
        as (e' & -> & _ & Hl & Hlab).
      exists (Some e'). simpl in *. repeat split.
      * now rewrite Hl.
      * intros e He. injection He as <-. exact Hlab.
    + left. exists v0. repeat split. exact E.
Qed.

Lemma parse_values_raises (stream_labels : labels) (values : list (list string)) :
  forall acc e,
    QueryTool.parse_values stream_labels values acc = inl e ->
    exists lit, e = QueryTool.ValueError_int lit /\ py_int lit = None.
Proof.
  induction values as [|value values IH]; intros acc e H; simpl in H;
    [discriminate |].
  destruct (parse_value_cases stream_labels value)
    as [(lit & E & Hlit & _) | (_ & r & E & _)]; rewrite E in H.
  - inversion H; subst. now exists lit.
  - destruct r; eapply IH; eassumption.
Qed.

Lemma parse_values_timed (stream_labels : labels) (values : list (list string)) :
  forall acc,
    forallb QueryTool.value_timed values = true ->
    exists entries,
      QueryTool.parse_values stream_labels values acc = inr (acc ++ entries)%list
      /\ map log entries = flat_map QueryTool.value_line values
      /\ Forall (fun e => entry_labels e = stream_labels) entries.
Proof.
  induction values as [|value values IH]; intros acc H; simpl in *.
  - exists []. rewrite app_nil_r. repeat split. constructor.
  - apply andb_true_iff in H. destruct H as [Hv Hr].
    destruct (parse_value_cases stream_labels value)
      as [(lit & _ & _ & Hf) | (_ & r & E & Hlog & Hlab)]; [congruence |].
    rewrite E. destruct r as [e|].
    + destruct (IH (acc ++ [e])%list Hr) as (entries & -> & Hm & Hall).
      exists (e :: entries). rewrite <- app_assoc. simpl. repeat split.
      * simpl in Hlog. rewrite <- Hlog, Hm. reflexivity.
      * constructor; [now apply Hlab | exact Hall].
    + destruct (IH acc Hr) as (entries & -> & Hm & Hall).
      exists entries. repeat split; [| exact Hall].
      simpl in Hlog. now rewrite <- Hlog, Hm.
Qed.

Lemma parse_streams_raises (streams : list QueryTool.stream_t) :
  forall acc e,
    QueryTool.parse_streams streams acc = inl e ->
    exists lit, e = QueryTool.ValueError_int lit /\ py_int lit = None.
Proof.
  induction streams as [|s streams IH]; intros acc e H; simpl in H;
    [discriminate |].
  destruct (QueryTool.parse_values _ _ acc) as [e'|acc'] eqn:E.
  - inversion H; subst. eapply parse_values_raises. eassumption.
  - eapply IH. eassumption.
Qed.

Lemma parse_streams_timed (streams : list QueryTool.stream_t) :
  forall acc,
    forallb QueryTool.stream_timed streams = true ->
    exists entries,
      QueryTool.parse_streams streams acc = inr (acc ++ entries)%list
      /\ map log entries = flat_map QueryTool.stream_lines streams.
Proof.
  induction streams as [|s streams IH]; intros acc H; simpl in *.
  - exists []. now rewrite app_nil_r.
  - apply andb_true_iff in H. destruct H as [Hs Hr].
    destruct (parse_values_timed
                (match QueryTool.stream s with Some l => l | None => [] end)
                _ acc Hs) as (es & -> & Hm & _).
    destruct (IH (acc ++ es)%list Hr) as (entries & -> & Hm').
    exists (es ++ entries)%list. rewrite <- app_assoc. split; [reflexivity |].
    rewrite map_app, Hm, Hm'. reflexivity.
Qed.

(** X7.  Within the limits of the embedding (ASCII values, a time of at
    most 19 characters, a line of at most 4300 characters that nests at most
    100 deep) no log line makes the parser raise: the only exception
    [_parse_log_entries] lets through is the [ValueError] of [int] on a
    time that does not read as an integer. *)
Theorem parser_raises_only_on_bad_time
        (result_data : QueryTool.result_data_t) (e : QueryTool.exn) :
  QueryTool.result_within_limits result_data = true ->
  QueryTool._parse_log_entries result_data = inl e ->
  exists literal, e = QueryTool.ValueError_int literal /\ py_int literal = None.
Proof.
  intros _. unfold QueryTool._parse_log_entries.
  destruct (QueryTool.result result_data); [| discriminate].
  apply parse_streams_raises.
Qed.

Lemma parser_raises_only_on_bad_time_witness :
  exists literal,
    QueryTool.ValueError_int "soon" = QueryTool.ValueError_int literal
    /\ py_int literal = None.
Proof.
  apply (parser_raises_only_on_bad_time
           (QueryTool.mk_result_data
              (Some [QueryTool.mk_stream None
                       (Some [["1"; "ok"]; ["soon"; "{not json}"]])])
              None)).
  - reflexivity.
  - reflexivity.
Defined.

(** X8.  Within the limits of the embedding (ASCII values, a time of at
    most 19 characters, a line of at most 4300 characters that nests at most
    100 deep), when the time of every value reads as an integer, the parser
    returns one entry per value that has at least two elements, across all
    streams and in their order, and the "log" field of each entry is the
    raw line, whether the line decodes as an object or not. *)
Theorem parser_keeps_every_line
        (result_data : QueryTool.result_data_t) :
  QueryTool.result_within_limits result_data = true ->
  QueryTool.result_timed result_data = true ->
  exists entries,
    QueryTool._parse_log_entries result_data = inr entries
    /\ map log entries = QueryTool.result_lines result_data
    /\ List.length entries = List.length (QueryTool.result_lines result_data).
Proof.
  intros _.
  unfold QueryTool._parse_log_entries, QueryTool.result_timed,
    QueryTool.result_lines.
  destruct (QueryTool.result result_data) as [streams|]; intros H.
  - destruct (parse_streams_timed streams [] H) as (entries & E & Hm).
    exists entries. simpl in E. repeat split; auto.
    now rewrite <- Hm, length_map.
  - exists []. repeat split.
Qed.

Lemma parser_keeps_every_line_witness :
  exists entries,
    QueryTool._parse_log_entries
      (QueryTool.mk_result_data
         (Some [ QueryTool.mk_stream (Some [("app", "api")])
                   (Some [["1"; "{FATAL disk full}"]; ["2"]; ["3"; "plain"]]);
                 QueryTool.mk_stream None None ])
         None) = inr entries
    /\ map log entries = ["{FATAL disk full}"; "plain"]
    /\ List.length entries = 2%nat.
Proof.
  apply (parser_keeps_every_line
           (QueryTool.mk_result_data
              (Some [ QueryTool.mk_stream (Some [("app", "api")])
                        (Some [["1"; "{FATAL disk full}"]; ["2"]; ["3"; "plain"]]);
                      QueryTool.mk_stream None None ])
              None)).
  - reflexivity.
  - reflexivity.
Defined.

(** X9.  The entry of a line that is not wrapped in braces, or that is
    wrapped in braces and does not decode, never makes the pattern
    detectors raise: [is_error_log], [is_warning_log] and
    [extract_error_type] all return a result on it. *)
Theorem detectors_accept_plain_text_entries
        (stream_labels : labels) (v0 log_line : string) (e : log_entry) :
  QueryTool.parse_value stream_labels [v0; log_line] = inr (Some e) ->
  QueryTool.looks_like_object log_line = false \/ loads log_line = None ->
  (exists b, is_error_log e = Some b)
  /\ (exists b, is_warning_log e = Some b)
  /\ (exists t, extract_error_type e = Some t).
Proof.
  unfold QueryTool.parse_value, QueryTool.parse_structured.
  destruct (py_int v0) as [ts|]; [| discriminate].
  intros H Hplain.
  assert (Hshape :
    (level e = None /\ message e = None)
    \/ (exists l, level e = Some (JStr l)) /\ message e = Some (JStr log_line)).
  { destruct (QueryTool.looks_like_object log_line) eqn:Hobj.
    - destruct Hplain as [Hp | Hp]; [discriminate |]. rewrite Hp in H.
      inversion H; subst. right. split; [eexists |]; reflexivity.
    - inversion H; subst. left. now split. }
  unfold is_error_log, is_warning_log, extract_error_type, get_level, get_message.
  destruct Hshape as [[Hl Hm] | [[l Hl] Hm]]; rewrite Hl, Hm; cbn [str_lower].
  - repeat split; try (eexists; reflexivity).
  - repeat split.
    + destruct (mem (lower l) error_levels); eexists; reflexivity.
    + destruct (mem (lower l) warning_levels); eexists; reflexivity.
    + eexists; reflexivity.
Qed.

Lemma detectors_accept_plain_text_entries_witness :
  (exists b, is_error_log
               (mk_log_entry 7 "2024 ERROR something failed" [] None None None)
             = Some b)
  /\ (exists b, is_warning_log
                  (mk_log_entry 7 "2024 ERROR something failed" [] None None None)
                = Some b)
  /\ (exists t, extract_error_type
                  (mk_log_entry 7 "2024 ERROR something failed" [] None None None)
                = Some t).
Proof.
  apply (detectors_accept_plain_text_entries
           [] "7" "2024 ERROR something failed"
           (mk_log_entry 7 "2024 ERROR something failed" [] None None None)).
  - reflexivity.
  - left. reflexivity.
Defined.

Lemma chr_eq_lower (ic : bool) (a b : ascii) :
  Re.chr_eq ic a b = true -> lower_ascii a = lower_ascii b.
Proof.
  unfold Re.chr_eq. destruct ic; intros H; apply Ascii.eqb_eq in H; congruence.
Qed.

Lemma lit_ic_inv (ic : bool) (p : string) (prev pr : option ascii) (s t : string) :
  Re.lit ic p prev s = Some (pr, t) ->
  exists w, s = w ++ t /\ lower w = lower p.
Proof.
  revert prev s. induction p as [|a p IH]; intros prev s H; simpl in H.
  - inversion H; subst. now exists EmptyString.
  - destruct s as [|b s]; [discriminate |].
    destruct (Re.chr_eq ic a b) eqn:E; [| discriminate].
    apply IH in H. destruct H as (w & -> & Hw).
    exists (String b w). simpl. now rewrite Hw, (chr_eq_lower ic a b E).
Qed.

Lemma run_alts_ic_inv {A : Type} (ic : bool) (words : list string)
      (k : option ascii -> string -> Re.captures -> option A)
      (prev : option ascii) (s : string) (c : Re.captures) (x : A) :
  words <> [] ->
  Re.run ic (Re.alts words) k prev s c = Some x ->
  exists word w pr t,
    In word words /\ s = w ++ t /\ lower w = lower word /\ k pr t c = Some x.
Proof.
  induction words as [|word words IH]; intros Hne H; [congruence |].
  destruct words as [|word' words].
  - cbn in H. destruct (Re.lit ic word prev s) as [[pr t]|] eqn:E; [| discriminate].
    apply lit_ic_inv in E. destruct E as (w & -> & Hw).
    exists word, w, pr, t. simpl. auto.
  - change (Re.alts (word :: word' :: words))
      with (Re.Alt (Re.Lit word) (Re.alts (word' :: words))) in H.
    cbn [Re.run] in H.
    destruct (Re.lit ic word prev s) as [[pr t]|] eqn:E.
    + destruct (k pr t c) eqn:Ek.
      * inversion H; subst. apply lit_ic_inv in E. destruct E as (w & -> & Hw).
        exists word, w, pr, t. simpl. auto.
      * apply IH in H; [| discriminate].
        destruct H as (u & w & pr' & t' & Hin & -> & Hw & Hk).
        exists u, w, pr', t'. split; [now right | auto].
    + apply IH in H; [| discriminate].
      destruct H as (u & w & pr' & t' & Hin & -> & Hw & Hk).
      exists u, w, pr', t'. split; [now right | auto].
Qed.

Lemma level_match_inv (log_line : string) (m : Re.captures) :
  QueryTool.level_match log_line = Some m ->
  exists word, In word QueryTool.level_words
               /\ lower (Re.group 1 m) = lower word.
Proof.
  unfold QueryTool.level_match, Re.search. intros H.
  apply search_from_inv in H. destruct H as (pre & pr & t & _ & H).
  unfold QueryTool.level_re in H. cbn [Re.run] in H.
  destruct (xorb (Re.word_before pr) (Re.word_after t)); [| discriminate].
  apply run_alts_ic_inv in H; [| discriminate].
  destruct H as (word & w & pr' & t' & Hin & -> & Hw & H).
  destruct (xorb (Re.word_before pr') (Re.word_after t')); [| discriminate].
  inversion H; subst m. exists word. split; [exact Hin |].
  cbn [Re.group Nat.eqb]. now rewrite substring_prefix.
Qed.

(** X10.  For every ASCII line, the level the plain-text handling infers
    is one of "debug", "info", "warn", "warning", "error", "fatal",
    "critical" and "unknown", in lower case, whatever the case of the word
    in the line. *)
Theorem plain_text_level_range (log_line : string) :
  all_chars is_ascii log_line = true ->
  In (QueryTool.plain_text_level log_line)
     ["debug"; "info"; "warn"; "warning"; "error"; "fatal"; "critical";
      "unknown"].
Proof.
  intros _. unfold QueryTool.plain_text_level.
  destruct (QueryTool.level_match log_line) as [m|] eqn:E.
  - destruct (level_match_inv _ _ E) as (word & Hin & ->).
    cbn in Hin.
    repeat (destruct Hin as [<- | Hin]; [cbn; tauto |]). destruct Hin.
  - cbn. tauto.
Qed.

Lemma plain_text_level_range_witness :
  In (QueryTool.plain_text_level "{Warning: disk at 91%}")
     ["debug"; "info"; "warn"; "warning"; "error"; "fatal"; "critical";
      "unknown"].
Proof.
  apply (plain_text_level_range "{Warning: disk at 91%}"). reflexivity.
Defined.

(** ** Further properties of the response envelope and of query execution *)

(** X11.  Reading a field back from the dict [to_dict] returns gives the
    field: its value when it is not [None], no entry when it is. *)
Theorem to_dict_lookup_is_field (r : Models.LogQueryResponse) :
  Models.lookup "success" (Models.to_dict r)
  = Some (Models.VBool (Models.success r))
  /\ Models.lookup "query" (Models.to_dict r)
     = Some (Models.VStr (Models.query r))
  /\ Models.lookup "logs" (Models.to_dict r)
     = option_map Models.VLogs (Models.logs r)
  /\ Models.lookup "total" (Models.to_dict r)
     = option_map Models.VInt (Models.total r)
  /\ Models.lookup "time_range" (Models.to_dict r)
     = option_map Models.VStr (Models.time_range r)
  /\ Models.lookup "api_endpoint" (Models.to_dict r)
     = option_map Models.VStr (Models.api_endpoint r)
  /\ Models.lookup "result_type" (Models.to_dict r)
     = option_map Models.VStr (Models.result_type r)
  /\ Models.lookup "error" (Models.to_dict r)
     = option_map Models.VStr (Models.error r)
  /\ Models.lookup "loki_url" (Models.to_dict r)
     = option_map Models.VStr (Models.loki_url r)
  /\ Models.lookup "error_type" (Models.to_dict r)
     = option_map Models.VStr (Models.error_type r).
Proof.
  destruct r as [s q [l|] [t|] [tr|] [ae|] [rt|] [e|] [lu|] [et|]];
    repeat split; reflexivity.
Qed.

(** X12.  A successful [query_logs] envelope holds every key the tools
    index without a default: "logs", "total", "time_range", "query"; its
    total is the number of its logs, its time range is
    "<start_time> to <end_time>", its query is the query that was asked and
    its endpoint is the query_range URL under the configured base URL. *)
Theorem query_logs_success_envelope
        (self : QueryTool.LokiQueryTool) (logql start_time end_time : string)
        (x : QueryTool.exchange) :
  Models.lookup "success" (QueryTool.query_logs self logql start_time end_time x)
  = Some (Models.VBool true) ->
  exists entries result_type,
    Models.lookup "logs" (QueryTool.query_logs self logql start_time end_time x)
    = Some (Models.VLogs entries)
    /\ Models.lookup "total"
         (QueryTool.query_logs self logql start_time end_time x)
       = Some (Models.VInt (Z.of_nat (List.length entries)))
    /\ Models.lookup "time_range"
         (QueryTool.query_logs self logql start_time end_time x)
       = Some (Models.VStr (start_time ++ " to " ++ end_time))
    /\ Models.lookup "query"
         (QueryTool.query_logs self logql start_time end_time x)
       = Some (Models.VStr logql)
    /\ Models.lookup "api_endpoint"
         (QueryTool.query_logs self logql start_time end_time x)
       = Some (Models.VStr
                 (QueryTool.loki_url self
                  ++ "/api/logs/v1/application/loki/api/v1/query_range"))
    /\ Models.lookup "result_type"
         (QueryTool.query_logs self logql start_time end_time x)
       = Some (Models.VStr result_type).
Proof.
  destruct x as [e | code text [e | ld]]; cbn; try discriminate.
  - destruct (code =? 200)%Z; cbn; discriminate.
  - destruct (code =? 200)%Z; cbn; [| discriminate].
    destruct (match QueryTool.status ld with
              | Some st0 => (st0 =? "success")%string
              | None => false
              end); cbn; [| discriminate].
    destruct (QueryTool._parse_log_entries _) as [ex | entries]; cbn;
      [discriminate |].
    intros _. eexists entries, _. repeat split; reflexivity.
Qed.

Lemma query_logs_success_envelope_witness :
  exists entries result_type,
    Models.lookup "logs"
      (QueryTool.query_logs (QueryTool.mk_LokiQueryTool "http://loki:3100")
         "{job=}" "t0" "t1"
         (QueryTool.Responded 200 "body"
            (inr (QueryTool.mk_loki_data (Some "success") None
                    (Some (QueryTool.mk_result_data
                             (Some [QueryTool.mk_stream None
                                      (Some [["1"; "plain"]])])
                             None))))))
    = Some (Models.VLogs entries)
    /\ Models.lookup "total"
         (QueryTool.query_logs (QueryTool.mk_LokiQueryTool "http://loki:3100")
            "{job=}" "t0" "t1"
            (QueryTool.Responded 200 "body"
               (inr (QueryTool.mk_loki_data (Some "success") None
                       (Some (QueryTool.mk_result_data
                                (Some [QueryTool.mk_stream None
                                         (Some [["1"; "plain"]])])
                                None))))))
       = Some (Models.VInt (Z.of_nat (List.length entries)))
    /\ Models.lookup "time_range"
         (QueryTool.query_logs (QueryTool.mk_LokiQueryTool "http://loki:3100")
            "{job=}" "t0" "t1"
            (QueryTool.Responded 200 "body"
               (inr (QueryTool.mk_loki_data (Some "success") None
                       (Some (QueryTool.mk_result_data
                                (Some [QueryTool.mk_stream None
                                         (Some [["1"; "plain"]])])
                                None))))))
       = Some (Models.VStr ("t0" ++ " to " ++ "t1"))
    /\ Models.lookup "query"
         (QueryTool.query_logs (QueryTool.mk_LokiQueryTool "http://loki:3100")
            "{job=}" "t0" "t1"
            (QueryTool.Responded 200 "body"
               (inr (QueryTool.mk_loki_data (Some "success") None
                       (Some (QueryTool.mk_result_data
                                (Some [QueryTool.mk_stream None
                                         (Some [["1"; "plain"]])])
                                None))))))
       = Some (Models.VStr "{job=}")
    /\ Models.lookup "api_endpoint"
         (QueryTool.query_logs (QueryTool.mk_LokiQueryTool "http://loki:3100")
            "{job=}" "t0" "t1"
            (QueryTool.Responded 200 "body"
               (inr (QueryTool.mk_loki_data (Some "success") None
                       (Some (QueryTool.mk_result_data
                                (Some [QueryTool.mk_stream None
                                         (Some [["1"; "plain"]])])
                                None))))))
       = Some (Models.VStr
                 ("http://loki:3100"
                  ++ "/api/logs/v1/application/loki/api/v1/query_range"))
    /\ Models.lookup "result_type"
         (QueryTool.query_logs (QueryTool.mk_LokiQueryTool "http://loki:3100")
            "{job=}" "t0" "t1"
            (QueryTool.Responded 200 "body"
               (inr (QueryTool.mk_loki_data (Some "success") None
                       (Some (QueryTool.mk_result_data
                                (Some [QueryTool.mk_stream None
                                         (Some [["1"; "plain"]])])
                                None))))))
       = Some (Models.VStr result_type).
Proof.
  apply (query_logs_success_envelope
           (QueryTool.mk_LokiQueryTool "http://loki:3100") "{job=}" "t0" "t1").
  reflexivity.
Defined.

(** X13.  A failed [query_logs] envelope always holds an "error" string and
    the query that was asked.  It comes in two shapes: with "api_endpoint"
    and without "loki_url" and "error_type" (the backend answered), or with
    "loki_url" and an "error_type" that is the value of a category, and
    without "api_endpoint" (an exception was raised). *)
Theorem query_logs_failure_shapes
        (self : QueryTool.LokiQueryTool) (logql start_time end_time : string)
        (x : QueryTool.exchange) :
  Models.lookup "success" (QueryTool.query_logs self logql start_time end_time x)
  = Some (Models.VBool false) ->
  (exists msg,
      Models.lookup "error" (QueryTool.query_logs self logql start_time end_time x)
      = Some (Models.VStr msg))
  /\ Models.lookup "query" (QueryTool.query_logs self logql start_time end_time x)
     = Some (Models.VStr logql)
  /\ ((Models.lookup "api_endpoint"
         (QueryTool.query_logs self logql start_time end_time x)
       = Some (Models.VStr (QueryTool.query_url self))
       /\ Models.has_key "loki_url"
            (QueryTool.query_logs self logql start_time end_time x) = false
       /\ Models.has_key "error_type"
            (QueryTool.query_logs self logql start_time end_time x) = false)
      \/ (Models.has_key "api_endpoint"
            (QueryTool.query_logs self logql start_time end_time x) = false
          /\ Models.lookup "loki_url"
               (QueryTool.query_logs self logql start_time end_time x)
             = Some (Models.VStr (QueryTool.loki_url self))
          /\ exists t, Models.lookup "error_type"
                         (QueryTool.query_logs self logql start_time end_time x)
                       = Some (Models.VStr (value t)))).
Proof.
  assert (Hexc : forall e,
    (exists msg, Models.lookup "error" (QueryTool.on_exception self logql e)
                 = Some (Models.VStr msg))
    /\ Models.lookup "query" (QueryTool.on_exception self logql e)
       = Some (Models.VStr logql)
    /\ ((Models.lookup "api_endpoint" (QueryTool.on_exception self logql e)
         = Some (Models.VStr (QueryTool.query_url self))
         /\ Models.has_key "loki_url" (QueryTool.on_exception self logql e) = false
         /\ Models.has_key "error_type" (QueryTool.on_exception self logql e) = false)
        \/ (Models.has_key "api_endpoint" (QueryTool.on_exception self logql e) = false
            /\ Models.lookup "loki_url" (QueryTool.on_exception self logql e)
               = Some (Models.VStr (QueryTool.loki_url self))
            /\ exists t, Models.lookup "error_type" (QueryTool.on_exception self logql e)
                         = Some (Models.VStr (value t))))).
  { intros e. split; [eexists; reflexivity |]. split; [reflexivity |].
    right. split; [reflexivity |]. split; [reflexivity |].
    eexists. reflexivity. }
  destruct x as [e | code text [e | ld]]; cbn [QueryTool.query_logs].
  - intros _. apply Hexc.
  - destruct (code =? 200)%Z; [intros _; apply Hexc |].
    intros _. split; [eexists; reflexivity |]. split; [reflexivity |].
    left. repeat split.
  - destruct (code =? 200)%Z.
    + destruct (match QueryTool.status ld with
                | Some st0 => (st0 =? "success")%string
                | None => false
                end).
      * destruct (QueryTool._parse_log_entries _) as [ex | entries].
        -- intros _. apply Hexc.
        -- cbn. discriminate.
      * intros _. split; [eexists; reflexivity |]. split; [reflexivity |].
        left. repeat split.
    + intros _. split; [eexists; reflexivity |]. split; [reflexivity |].
      left. repeat split.
Qed.

Lemma query_logs_failure_shapes_witness :
  exists msg,
    Models.lookup "error"
      (QueryTool.query_logs (QueryTool.mk_LokiQueryTool "http://loki:3100")
         "{job=}" "t0" "t1" (QueryTool.Responded 503 "busy" (inl "no body")))
    = Some (Models.VStr msg).
Proof.
  apply (query_logs_failure_shapes
           (QueryTool.mk_LokiQueryTool "http://loki:3100") "{job=}" "t0" "t1"
           (QueryTool.Responded 503 "busy" (inl "no body"))).
  reflexivity.
Defined.

(** ** Credentials *)

(** X14.  The request headers always carry the JSON content type, and an
    Authorization header, when there is one, is "Bearer " followed by a
    token that is neither empty nor the development placeholder
    "dev-token": the placeholder is never sent. *)
Theorem authorization_never_carries_placeholder (env : QueryTool.environment) :
  In ("Content-Type", "application/json") (QueryTool._get_request_headers env)
  /\ forall v, In ("Authorization", v) (QueryTool._get_request_headers env) ->
               exists token, v = "Bearer " ++ token
                             /\ token <> EmptyString
                             /\ token <> "dev-token".
Proof.
  unfold QueryTool._get_request_headers.
  destruct (QueryTool._get_service_account_token env) as [e | token].
  - split; [now left |]. intros v [H | []]. discriminate H.
  - destruct (truthy token) eqn:Ht; cbn [andb].
    + destruct (String.eqb_spec token QueryTool.DEV_FALLBACK_TOKEN); cbn [negb].
      * split; [now left |]. intros v [H | []]. discriminate H.
      * split; [now left |]. intros v [H | [H | []]]; [discriminate H |].
        injection H as <-. exists token. repeat split; auto.
        intros ->. discriminate Ht.
    + split; [now left |]. intros v [H | []]. discriminate H.
Qed.

(** X15.  The token sources are tried in order and the first one that is
    there decides.  A non-empty LOKI_TOKEN is the token, whatever the files
    hold.  Without it, a collector token file that can be read decides
    alone: the token is its stripped content and the service account file is
    not consulted, so a collector file that is blank leaves the request
    without Authorization header even when the service account file holds a
    token. *)
Theorem token_sources_in_order
        (loki_token text : string) (collector account account' : QueryTool.file_read)
        (unset : option string)
        (Hset : loki_token <> EmptyString)
        (Hunset : unset = None \/ unset = Some EmptyString) :
  QueryTool._get_service_account_token
    (QueryTool.mk_environment (Some loki_token) collector account)
  = inr loki_token
  /\ QueryTool._get_service_account_token
       (QueryTool.mk_environment unset (QueryTool.Content text) account)
     = inr (strip text)
  /\ QueryTool._get_request_headers
       (QueryTool.mk_environment unset (QueryTool.Content text) account)
     = QueryTool._get_request_headers
         (QueryTool.mk_environment unset (QueryTool.Content text) account')
  /\ (strip text = EmptyString ->
      QueryTool._get_request_headers
        (QueryTool.mk_environment unset (QueryTool.Content text) account)
      = [("Content-Type", "application/json")]).
Proof.
  assert (Htok : forall acc,
    QueryTool._get_service_account_token
      (QueryTool.mk_environment unset (QueryTool.Content text) acc)
    = inr (strip text)).
  { intros acc. destruct Hunset as [-> | ->]; reflexivity. }
  repeat split.
  - unfold QueryTool._get_service_account_token. cbn.
    destruct loki_token; [congruence | reflexivity].
  - apply Htok.
  - intros Hblank. unfold QueryTool._get_request_headers.
    rewrite Htok, Hblank. reflexivity.
Qed.

Lemma token_sources_in_order_witness :
  QueryTool._get_request_headers
    (QueryTool.mk_environment None (QueryTool.Content "  ")
       (QueryTool.Content "sa-token"))
  = [("Content-Type", "application/json")].
Proof.
  refine (proj2 (proj2 (proj2
    (token_sources_in_order "env-token" "  " QueryTool.FileNotFound
       (QueryTool.Content "sa-token") QueryTool.FileNotFound None _ _))) _).
  - discriminate.
  - left. reflexivity.
  - reflexivity.
Defined.

(** ** [query_log_volume] *)

(** X16.  Whatever the outcome of the round trip, the envelope
    [query_log_volume] returns names the volume query it built,
    [sum by (namespace, service_name) (count_over_time(<selector>[<interval>]))],
    and an empty namespace or service counts as one that is not given. *)
Theorem query_log_volume_names_its_query
        (self : QueryTool.LokiQueryTool) (namespace service : option string)
        (start_time end_time interval : string) (x : QueryTool.exchange) :
  Models.lookup "query"
    (QueryTool.query_log_volume self namespace service start_time end_time
                                interval x)
  = Some (Models.VStr
            ("sum by (namespace, service_name) (count_over_time("
             ++ QueryTool.volume_base_query namespace service
             ++ "[" ++ interval ++ "]))"))
  /\ QueryTool.volume_base_query (Some EmptyString) service
     = QueryTool.volume_base_query None service
  /\ QueryTool.volume_base_query namespace (Some EmptyString)
     = QueryTool.volume_base_query namespace None
  /\ QueryTool.volume_base_query None None
     = "{job=" ++ dq ++ "application" ++ dq ++ "}".
Proof.
  split;
    [| repeat split; unfold QueryTool.volume_base_query;
       destruct (QueryTool.given namespace); reflexivity].
  unfold QueryTool.query_log_volume.
  set (q := QueryTool.volume_query namespace service interval).
  change ("sum by (namespace, service_name) (count_over_time("
          ++ QueryTool.volume_base_query namespace service
          ++ "[" ++ interval ++ "]))") with q.
  destruct x as [e | code text [e | ld]]; cbn.
  - reflexivity.
  - destruct (code =? 200)%Z; reflexivity.
  - destruct (code =? 200)%Z; cbn; [| reflexivity].
    destruct (match QueryTool.status ld with
              | Some st0 => (st0 =? "success")%string
              | None => false
              end); cbn; [| reflexivity].
    destruct (QueryTool._parse_log_entries _); reflexivity.
Qed.

(** ** The window of the chat tool *)

Lemma window_of_extracted_range (question : string) :
  exists seconds,
    McpTools.window_seconds (McpTools.extract_time_range_from_question question)
    = Some seconds
    /\ In seconds [86400; 604800; 2592000; 7200; 21600; 43200; 3600; 1800;
                   900; 300]%Z.
Proof.
  unfold McpTools.extract_time_range_from_question.
  repeat lazymatch goal with
         | |- exists s, McpTools.window_seconds (if ?c then _ else _) = _ /\ _ =>
             destruct c; [eexists; split; [reflexivity | cbn; tauto] |]
         end.
  eexists; split; [reflexivity | cbn; tauto].
Qed.

Lemma no_last_no_phrase (p s : string) :
  str_in "last" s = false -> str_in ("last" ++ p) s = false.
Proof.
  intros Hl. destruct (str_in ("last" ++ p) s) eqn:E; [| reflexivity].
  destruct (str_in_inv _ _ E) as (a & b & Hab). rewrite Hab in Hl.
  replace (a ++ ("last" ++ p) ++ b) with (a ++ "last" ++ (p ++ b)) in Hl
    by (rewrite !app_assoc_str; reflexivity).
  now rewrite str_in_app in Hl.
Qed.

Lemma extracted_range_default (question : string) :
  str_in "last" (lower question) = false ->
  str_in "yesterday" (lower question) = false ->
  McpTools.extract_time_range_from_question question = "last 2h".
Proof.
  intros Hl Hy. unfold McpTools.extract_time_range_from_question.
  rewrite Hy.
  repeat match goal with
         | |- context [str_in (String "l"%char ?p) (lower question)] =>
             let H := fresh "H" in
             pose proof (no_last_no_phrase (McpTools.drop 4 (String "l"%char p))
                                           (lower question) Hl) as H;
             cbn in H; rewrite H; clear H
         end.
  reflexivity.
Qed.

(** X17.  Whatever the question, the range [extract_time_range_from_question]
    returns is one that [chat_loki_tool] can read: the conversion of its
    number never fails and the window is one of the ten the function
    knows; it is two hours when the question holds neither "last" nor
    "yesterday". *)
Theorem extracted_time_range_always_reads (question : string) :
  exists seconds,
    McpTools.window_seconds (McpTools.extract_time_range_from_question question)
    = Some seconds
    /\ In seconds [86400; 604800; 2592000; 7200; 21600; 43200; 3600; 1800;
                   900; 300]%Z
    /\ (str_in "last" (lower question) = false ->
        str_in "yesterday" (lower question) = false ->
        seconds = 7200%Z).
Proof.
  destruct (window_of_extracted_range question) as (seconds & Hw & Hin).
  exists seconds. repeat split; auto.
  intros Hl Hy. rewrite (extracted_range_default question Hl Hy) in Hw.
  vm_compute in Hw. now injection Hw as <-.
Qed.

(** ** Further properties of the query planner *)

Section PlannerScope.

Import LogqlService.

Lemma insert_key_nodup (d : list string) (q : string) :
  NoDup d -> NoDup (insert_key d q).
Proof.
  intros H. unfold insert_key. destruct (existsb (String.eqb q) d) eqn:E.
  - exact H.
  - apply NoDup_app; [exact H | repeat constructor; intros [] |].
    intros x Hx [Hq | []]. subst x.
    assert (Hex : existsb (String.eqb q) d = true).
    { apply existsb_exists. exists q. split; [exact Hx | apply String.eqb_refl]. }
    congruence.
Qed.

Lemma fold_insert_key_nodup_any (l d : list string) :
  NoDup d -> NoDup (fold_left insert_key l d).
Proof.
  revert d. induction l as [|q l IH]; intros d H; simpl; [exact H |].
  apply IH. now apply insert_key_nodup.
Qed.

Lemma fold_insert_key_prefix (l d : list string) :
  exists l', fold_left insert_key l d = (d ++ l')%list.
Proof.
  revert d. induction l as [|q l IH]; intros d; simpl.
  - exists []. now rewrite app_nil_r.
  - destruct (IH (insert_key d q)) as [l' ->]. unfold insert_key.
    destruct (existsb (String.eqb q) d).
    + now exists l'.
    + exists (q :: l'). now rewrite <- app_assoc.
Qed.

Lemma fromkeys_cons_nonempty (x : string) (l : list string) :
  fromkeys (x :: l) <> [].
Proof.
  rewrite fromkeys_fold. cbn [fold_left].
  destruct (fold_insert_key_prefix l (insert_key [] x)) as [l' ->].
  discriminate.
Qed.

Lemma topic_queries_nonempty
      (question_lower base_selector namespace_filter rate_interval : string) :
  topic_queries question_lower base_selector namespace_filter rate_interval <> [].
Proof.
  unfold topic_queries, error_branch, http_branch, service_branch,
    default_queries.
  repeat match goal with
         | |- context [if ?c then _ else _] => destruct c
         | |- context [match ?c with Some _ => _ | None => _ end] => destruct c
         end; discriminate.
Qed.

(** X18.  The planner never returns an empty list, a duplicate or a blank
    query, whatever the question, the scope and the time window. *)
Theorem planner_result_is_never_empty
        (question : string) (namespace : option string)
        (start_ts end_ts : Z) (is_fleet_wide : bool) :
  generate_logql_from_question question namespace start_ts end_ts is_fleet_wide
  <> []
  /\ NoDup (generate_logql_from_question question namespace start_ts end_ts
                                         is_fleet_wide)
  /\ forall q,
       In q (generate_logql_from_question question namespace start_ts end_ts
                                          is_fleet_wide) ->
       strip q <> EmptyString.
Proof.
  unfold generate_logql_from_question, remove_duplicates_and_empty.
  destruct (base_selector_head namespace is_fleet_wide) as [t Ht]. rewrite Ht.
  set (topic := topic_queries _ _ _ _).
  set (extra := time_queries _ _).
  assert (Hplain : forallb opens_plainly topic = true)
    by apply topic_queries_open_plainly.
  assert (Hne : topic <> []) by apply topic_queries_nonempty.
  repeat split.
  - rewrite filter_app, (filter_all _ topic).
    + destruct topic as [|x topic]; [congruence |].
      apply fromkeys_cons_nonempty.
    + revert Hplain. apply forallb_impl. exact opens_plainly_truthy.
  - rewrite fromkeys_fold. apply fold_insert_key_nodup_any. constructor.
  - intros q Hq. rewrite fromkeys_fold in Hq.
    apply fold_insert_key_in in Hq. destruct Hq as [[] | Hq].
    apply filter_In in Hq. destruct Hq as [_ Hq].
    destruct (strip q); [discriminate | discriminate].
Qed.

Lemma error_branch_head (question_lower base_selector : string) :
  exists more,
    error_branch question_lower base_selector
    = line_match base_selector
                 "(?i)(error|failed|failure|exception|panic|fatal|critical)"
      :: (base_selector ++ " | json | level=" ++ quoted "error")
      :: (base_selector ++ " | logfmt | level=" ++ quoted "error")
      :: more.
Proof.
  unfold error_branch.
  repeat match goal with
         | |- context [if ?c then _ else _] => destruct c
         end; eexists; reflexivity.
Qed.

(** X19.  Error keywords come first in the chain: for every question that
    holds one of them, whatever other keywords it holds, the result opens
    with the three error queries -- the pattern match, the json and the
    logfmt filter on level "error" -- in that order. *)
Theorem error_keyword_takes_priority
        (question : string) (namespace : option string)
        (start_ts end_ts : Z) (is_fleet_wide : bool) :
  any_in error_words (lower question) = true ->
  exists rest,
    generate_logql_from_question question namespace start_ts end_ts is_fleet_wide
    = (base_selector_of namespace is_fleet_wide
         ++ " |~ " ++ dq
         ++ "(?i)(error|failed|failure|exception|panic|fatal|critical)" ++ dq)
      :: (base_selector_of namespace is_fleet_wide
            ++ " | json | level=" ++ dq ++ "error" ++ dq)
      :: (base_selector_of namespace is_fleet_wide
            ++ " | logfmt | level=" ++ dq ++ "error" ++ dq)
      :: rest.
Proof.
  intros Herr.
  unfold generate_logql_from_question, remove_duplicates_and_empty, topic_queries.
  rewrite Herr.
  destruct (base_selector_head namespace is_fleet_wide) as [t Ht]. rewrite Ht.
  destruct (error_branch_head (lower question) (String "{"%char t)) as [more ->].
  set (a := line_match (String "{"%char t) _).
  set (b := String "{"%char t ++ " | json | level=" ++ quoted "error").
  set (c := String "{"%char t ++ " | logfmt | level=" ++ quoted "error").
  change ((a :: b :: c :: more) ++ time_queries (lower question) (String "{"%char t))%list
    with (a :: b :: c :: (more ++ time_queries (lower question) (String "{"%char t)))%list.
  set (tail := (more ++ _)%list).
  cbn [filter].
  replace (truthy (strip a)) with true
    by (symmetry; apply strip_head_not_space; reflexivity).
  replace (truthy (strip b)) with true
    by (symmetry; apply strip_head_not_space; reflexivity).
  replace (truthy (strip c)) with true
    by (symmetry; apply strip_head_not_space; reflexivity).
  rewrite fromkeys_fold. cbn [fold_left].
  assert (Hab : a <> b).
  { subst a b. unfold line_match. intros H.
    apply app_inv_head_str in H. discriminate H. }
  assert (Hac : a <> c).
  { subst a c. unfold line_match. intros H.
    apply app_inv_head_str in H. discriminate H. }
  assert (Hbc : b <> c).
  { subst b c. intros H. apply app_inv_head_str in H. discriminate H. }
  assert (E1 : insert_key [] a = [a]) by reflexivity.
  assert (E2 : insert_key [a] b = [a; b]).
  { apply (insert_key_fresh [a] b). intros [H | []]. congruence. }
  assert (E3 : insert_key [a; b] c = [a; b; c]).
  { apply (insert_key_fresh [a; b] c). intros [H | [H | []]]; congruence. }
  rewrite E1, E2, E3.
  destruct (fold_insert_key_prefix
              (filter (fun q => truthy (strip q)) tail) [a; b; c]) as [l' ->].
  exists l'. reflexivity.
Qed.

Lemma error_keyword_takes_priority_witness :
  exists rest,
    generate_logql_from_question
      "why is the login service slow and failing with errors"
      (Some "payments") 0 3600 false
    = (base_selector_of (Some "payments") false
         ++ " |~ " ++ dq
         ++ "(?i)(error|failed|failure|exception|panic|fatal|critical)" ++ dq)
      :: (base_selector_of (Some "payments") false
            ++ " | json | level=" ++ dq ++ "error" ++ dq)
      :: (base_selector_of (Some "payments") false
            ++ " | logfmt | level=" ++ dq ++ "error" ++ dq)
      :: rest.
Proof.
  apply (error_keyword_takes_priority
           "why is the login service slow and failing with errors"
           (Some "payments") 0 3600 false).
  reflexivity.
Defined.

(** X20.  The scope of a question: a fleet-wide question ignores the
    namespace it is given, and an empty namespace counts as none; both are
    answered with the queries of the job-level selector. *)
Theorem fleet_wide_ignores_namespace
        (question : string) (namespace : option string)
        (start_ts end_ts : Z) (is_fleet_wide : bool) :
  generate_logql_from_question question namespace start_ts end_ts true
  = generate_logql_from_question question None start_ts end_ts is_fleet_wide
  /\ generate_logql_from_question question (Some EmptyString) start_ts end_ts
                                  is_fleet_wide
     = generate_logql_from_question question None start_ts end_ts is_fleet_wide
  /\ base_selector_of None is_fleet_wide
     = "{job=" ++ dq ++ "application" ++ dq ++ "}".
Proof.
  unfold generate_logql_from_question, base_selector_of, namespace_filter_of.
  cbn [orb no_namespace truthy negb].
  rewrite !orb_true_r. repeat split.
Qed.

(** X21.  The time window only matters to questions about volume: for a
    question that holds none of the volume keywords, the result is the same
    for every window. *)
Theorem window_only_matters_for_volume
        (question : string) (namespace : option string)
        (start_ts end_ts start_ts' end_ts' : Z) (is_fleet_wide : bool) :
  any_in volume_words (lower question) = false ->
  generate_logql_from_question question namespace start_ts end_ts is_fleet_wide
  = generate_logql_from_question question namespace start_ts' end_ts'
                                 is_fleet_wide.
Proof.
  intros Hvol. unfold generate_logql_from_question.
  do 2 f_equal. unfold topic_queries. rewrite Hvol.
  repeat lazymatch goal with
         | |- (if ?c then _ else _) = (if ?c then _ else _) =>
             destruct c; [reflexivity |]
         end.
  reflexivity.
Qed.

Lemma window_only_matters_for_volume_witness :
  generate_logql_from_question "any warnings today" (Some "payments")
                               0 60 false
  = generate_logql_from_question "any warnings today" (Some "payments")
                                 0 1000000 false.
Proof.
  apply (window_only_matters_for_volume
           "any warnings today" (Some "payments") 0 60 0 1000000 false).
  reflexivity.
Defined.

Lemma analysis_selector_head (namespace service_name : option string) :
  exists t, analysis_selector namespace service_name = String "{"%char t.
Proof.
  unfold analysis_selector.
  repeat match goal with
         | |- context [if ?c then _ else _] => destruct c
         end; eexists; reflexivity.
Qed.

Ltac distinct_queries :=
  repeat constructor; cbn [In]; intros H;
  repeat match goal with
         | H : _ \/ _ |- _ => destruct H as [H | H]
         | H : False |- _ => destruct H
         end;
  unfold line_match, quoted in H;
  first [ apply app_inv_head_str in H; discriminate H
        | discriminate H ].

(** X22.  The two analysis builders return a fixed number of queries, seven
    for errors and six for performance, all different from one another,
    whatever the namespace, the service and the time range; and an empty
    namespace or service counts as one that is not given. *)
Theorem analysis_builders_return_distinct_queries
        (namespace service_name : option string) (time_range : string) :
  List.length (build_error_analysis_logql namespace service_name time_range)
  = 7%nat
  /\ NoDup (build_error_analysis_logql namespace service_name time_range)
  /\ List.length (build_performance_analysis_logql namespace service_name
                                                   time_range) = 6%nat
  /\ NoDup (build_performance_analysis_logql namespace service_name time_range)
  /\ build_error_analysis_logql (Some EmptyString) (Some EmptyString) time_range
     = build_error_analysis_logql None None time_range.
Proof.
  unfold build_error_analysis_logql, build_performance_analysis_logql.
  destruct (analysis_selector_head namespace service_name) as [t ->].
  split; [reflexivity |]. split; [distinct_queries |].
  split; [reflexivity |]. split; [distinct_queries | reflexivity].
Qed.

End PlannerScope.

(** ** The label methods *)

Lemma details_keys (logged : json -> option string)
      (x : QueryTool.details_exchange) :
  match Models.details_lookup "success" (QueryTool.details_of_exchange logged x) with
  | Some (Models.DBool true) =>
      Models.details_lookup "error" (QueryTool.details_of_exchange logged x) = None
  | Some (Models.DBool false) =>
      Models.details_lookup "data" (QueryTool.details_of_exchange logged x) = None
  | _ => False
  end.
Proof.
  unfold QueryTool.details_of_exchange.
  destruct x as [e | code text [e | v]]; cbn.
  - reflexivity.
  - destruct (code =? 200)%Z; reflexivity.
  - destruct (code =? 200)%Z; [| reflexivity].
    destruct v as [| b | n | t | items | data]; try reflexivity.
    destruct (match dict_get "status" data with
              | Some (JStr st) => (st =? "success")%string
              | _ => false
              end).
    + destruct (logged _); [reflexivity |].
      unfold Models.details_to_dict. cbn.
      destruct (QueryTool.py_value _); reflexivity.
    + unfold Models.details_to_dict. cbn.
      destruct (QueryTool.py_value _); reflexivity.
Qed.

(** X23.  The envelopes of [get_log_labels] and [get_label_values].  Both
    always carry a boolean "success"; a successful envelope has no "error"
    key and a failed one no "data" key; an exception is reported with its
    own text, unclassified.  When the backend answers success, a "data"
    that is a list or a string, or is absent (then the empty list), is
    returned by both methods; a "data" that is null, a number or a boolean
    makes both fail with the [TypeError] text of [len]; and a "data" that is
    an object is returned by [get_log_labels] while [get_label_values]
    fails on it. *)
Theorem label_methods_envelope
        (self : QueryTool.LokiQueryTool) (label_name text : string)
        (body : list (string * json)) (v : json)
        (Hstatus : dict_get "status" body = Some (JStr "success"))
        (Hdata : v = get "data" body (JArr [])) :
  (forall x,
      match Models.details_lookup "success" (QueryTool.get_log_labels self x) with
      | Some (Models.DBool true) =>
          Models.details_lookup "error" (QueryTool.get_log_labels self x) = None
      | Some (Models.DBool false) =>
          Models.details_lookup "data" (QueryTool.get_log_labels self x) = None
      | _ => False
      end
      /\ match Models.details_lookup "success"
                 (QueryTool.get_label_values self label_name x) with
         | Some (Models.DBool true) =>
             Models.details_lookup "error"
               (QueryTool.get_label_values self label_name x) = None
         | Some (Models.DBool false) =>
             Models.details_lookup "data"
               (QueryTool.get_label_values self label_name x) = None
         | _ => False
         end)
  /\ (forall e,
         QueryTool.get_log_labels self (QueryTool.DetailsRaised e)
         = [("success", Models.DBool false); ("error", Models.DValue (JStr e))]
         /\ QueryTool.get_label_values self label_name (QueryTool.DetailsRaised e)
            = [("success", Models.DBool false); ("error", Models.DValue (JStr e))])
  /\ match v with
     | JStr _ | JArr _ =>
         QueryTool.get_log_labels self
           (QueryTool.DetailsResponded 200 text (inr (JObj body)))
         = [("success", Models.DBool true); ("data", Models.DValue v)]
         /\ QueryTool.get_label_values self label_name
              (QueryTool.DetailsResponded 200 text (inr (JObj body)))
            = [("success", Models.DBool true); ("data", Models.DValue v)]
     | JNull | JBool _ | JNum _ =>
         QueryTool.get_log_labels self
           (QueryTool.DetailsResponded 200 text (inr (JObj body)))
         = [("success", Models.DBool false);
            ("error", Models.DValue
                        (JStr ("object of type '" ++ type_name v
                               ++ "' has no len()")))]
         /\ QueryTool.get_label_values self label_name
              (QueryTool.DetailsResponded 200 text (inr (JObj body)))
            = [("success", Models.DBool false);
               ("error", Models.DValue
                           (JStr ("object of type '" ++ type_name v
                                  ++ "' has no len()")))]
     | JObj _ =>
         QueryTool.get_log_labels self
           (QueryTool.DetailsResponded 200 text (inr (JObj body)))
         = [("success", Models.DBool true); ("data", Models.DValue v)]
         /\ Models.details_lookup "success"
              (QueryTool.get_label_values self label_name
                 (QueryTool.DetailsResponded 200 text (inr (JObj body))))
            = Some (Models.DBool false)
     end.
Proof.
  split; [| split].
  - intros x. split; apply details_keys.
  - intros e. split; reflexivity.
  - unfold QueryTool.get_log_labels, QueryTool.get_label_values,
      QueryTool.details_of_exchange.
    cbn [Z.eqb Pos.eqb]. rewrite Hstatus.
    change (String.eqb "success" "success") with true. cbv iota.
    rewrite <- Hdata. destruct v; split; reflexivity.
Qed.

Lemma label_methods_envelope_witness :
  QueryTool.get_log_labels (QueryTool.mk_LokiQueryTool "http://loki:3100")
    (QueryTool.DetailsResponded 200 "body"
       (inr (JObj [("status", JStr "success"); ("data", JNull)])))
  = [("success", Models.DBool false);
     ("error", Models.DValue (JStr "object of type 'NoneType' has no len()"))]
  /\ QueryTool.get_label_values (QueryTool.mk_LokiQueryTool "http://loki:3100")
       "app"
       (QueryTool.DetailsResponded 200 "body"
          (inr (JObj [("status", JStr "success"); ("data", JNull)])))
     = [("success", Models.DBool false);
        ("error", Models.DValue (JStr "object of type 'NoneType' has no len()"))].
Proof.
  refine (proj2 (proj2
    (label_methods_envelope (QueryTool.mk_LokiQueryTool "http://loki:3100")
       "app" "body" [("status", JStr "success"); ("data", JNull)] JNull _ _)));
    reflexivity.
Defined.

(** ** The failure text of the query tool *)

(** X24.  When [query_logs] fails with an exception that is classified as
    a DNS resolution failure, the text [query_loki_tool] returns is the
    user-friendly message followed by the deployment note, whatever the
    endpoint. *)
Theorem dns_failure_gets_deployment_note
        (self : QueryTool.LokiQueryTool) (logql start_time end_time e : string) :
  classify_error e = DNS_RESOLUTION_FAILED ->
  exists msg,
    Models.lookup "error"
      (QueryTool.query_logs self logql start_time end_time (QueryTool.Raised e))
    = Some (Models.VStr msg)
    /\ McpTools.failure_text msg = msg ++ McpTools.deployment_note.
Proof.
  intros Hdns.
  exists (get_user_friendly_message DNS_RESOLUTION_FAILED (QueryTool.loki_url self)).
  split.
  - unfold QueryTool.query_logs, QueryTool.on_exception. rewrite Hdns. reflexivity.
  - unfold McpTools.failure_text.
    replace (str_in "not reachable"
               (get_user_friendly_message DNS_RESOLUTION_FAILED
                                          (QueryTool.loki_url self)))
      with true; [reflexivity |].
    symmetry.
    exact (str_in_app "not reachable" "Loki service "
             (" at " ++ QueryTool.loki_url self
              ++ ". This is expected when running locally. Deploy to OpenShift to access Loki.")).
Qed.

Lemma dns_failure_gets_deployment_note_witness :
  exists msg,
    Models.lookup "error"
      (QueryTool.query_logs (QueryTool.mk_LokiQueryTool "http://loki:3100")
         "{job=}" "t0" "t1"
         (QueryTool.Raised "[Errno -2] Name or service not known"))
    = Some (Models.VStr msg)
    /\ McpTools.failure_text msg = msg ++ McpTools.deployment_note.
Proof.
  apply (dns_failure_gets_deployment_note
           (QueryTool.mk_LokiQueryTool "http://loki:3100") "{job=}" "t0" "t1"
           "[Errno -2] Name or service not known").
  reflexivity.
Defined.
